(** * Energy and carbon estimation, and allocation-target selection

    A shallow embedding of the estimation and selection logic of the
    energy-aware workload allocation service:

    - [RealTimeDataCollector.estimate_energy_consumption] and
      [RealTimeDataCollector.estimate_carbon_footprint], with the
      collection cycle around them, [get_instance_metrics] and
      [collect_and_save_data] (scripts/collect_realtime_data.py),
    - [EnergyMonitor.calculate_energy_consumption] and
      [EnergyMonitor.estimate_carbon_footprint], with the monitoring pass
      around them, [get_instance_metrics] and [monitor_instances]
      (src/energy_monitoring.py),
    - [WorkloadAllocator.allocate_workload] and [scale_resources]
      (src/workload_allocator.py),
    - [APIIntegration.get_sustainability_metrics] and the three routes
      that call the above (src/api_integration.py).

    The cloud services, the clock, the files and the gauges are
    parameters of the sections that use them; the two endless loops
    [start_collection] and [start_monitoring] are not embedded.

    Numbers.  The Python code computes with [int] and [float].  A
    quantity is modelled as an exact rational ([Q]); [/] is Python's true
    division, and equalities between results are stated with [==] ([Qeq])
    and read as equalities of the exact values.  Two places need more.
    The energy figure of a candidate is [np.mean] of its samples, which is
    NaN for an instance without samples: candidates carry an [npfloat], a
    number or NaN, compared as Python compares floats.  And where a
    statement depends on rounding, the energy estimate is also given in
    binary64 ([Binary64.estimate_energy_consumption]).

    Effects.  Methods are computations in a small monad [M] that threads
    the observable world (the records handed to the [logging] module) and
    returns either a value or a raised exception, so that [try]/[except]
    blocks and [logger] calls are written where the source has them. *)

From Stdlib Require Import QArith Qround Lqa PrimFloat.
From stdpp Require Import gmap strings list fin_maps pretty.

Local Open Scope Q_scope.

(** ** A small model of Python effects *)

Module Py.

(** Exceptions raised by the modelled code: a bare [Exception(msg)] and
    the [KeyError] of a failed subscript [d[key]]. *)
Inductive exn : Type :=
| Exception (msg : string)
| KeyError (key : string).

(** [str(e)] as used in the handlers' f-strings. *)
Definition str (e : exn) : string :=
  match e with
  | Exception msg => msg
  | KeyError key => "'" +:+ key +:+ "'"
  end.

(** The values stored in a request dictionary. *)
Inductive pyobj : Type :=
| VInt (n : Z)
| VNum (q : Q)
| VStr (s : string).

Inductive level : Type := INFO | WARNING | ERROR.

(** The world a method can observe or change: here, the log records
    emitted so far (oldest first). *)
Record world : Type := World { log : list (level * string) }.

Definition initial_world : world := World [].

Inductive outcome (A : Type) : Type :=
| Return (a : A)
| Raise (e : exn).
Arguments Return {A} a.
Arguments Raise {A} e.

Definition M (A : Type) : Type := world -> outcome A * world.

(** [return a], sequencing, and [raise e], registered with stdpp's
    overloaded monad notations [x ← m; k] and [m;; k]. *)
#[export] Instance M_ret : MRet M := fun A a w => (Return a, w).

#[export] Instance M_bind : MBind M := fun A B k m w =>
  match m w with
  | (Return a, w') => k a w'
  | (Raise e, w') => (Raise e, w')
  end.

#[export] Instance M_raise : MThrow exn M := fun A e w => (Raise e, w).

(** [try: body  except Exception as e: handler e]. *)
Definition try_except {A} (body : M A) (handler : exn -> M A) : M A :=
  fun w =>
    match body w with
    | (Return a, w') => (Return a, w')
    | (Raise e, w') => handler e w'
    end.

Definition emit (lv : level) (msg : string) : M unit :=
  fun w => (Return tt, World (log w ++ [(lv, msg)])).

Definition logger_info : string -> M unit := emit INFO.
Definition logger_error : string -> M unit := emit ERROR.

(** [d[key]] on a dictionary. *)
Definition getitem {V} (d : gmap string V) (key : string) : M V :=
  match d !! key with
  | Some v => mret v
  | None => mthrow (KeyError key)
  end.

(** [m] is an effect-free call with result [v]: started in any world it
    returns [v] normally and hands the world back unchanged. *)
Definition yields {A} (m : M A) (v : A) : Prop :=
  forall w, m w = (Return v, w).

(** [m] is an effect-free call whose result is the number [q]. *)
Definition yields_num (m : M Q) (q : Q) : Prop :=
  exists v, yields m v /\ v == q.

(** [m] ends by raising [e] when started in [w]. *)
Definition raises {A} (m : M A) (w : world) (e : exn) : Prop :=
  fst (m w) = Raise e.

End Py.

Import Py.

(** ** The shapes of the cloud answers *)

Module Aws.

(** One element of [response['Datapoints']] of
    [cloudwatch.get_metric_statistics]. *)
Record cw_datapoint : Type := CwDatapoint { Timestamp : Z; Average : Q }.

(** One element of [reservation['Instances']] of
    [ec2.describe_instances]; [AvailabilityZone] is
    [instance['Placement']['AvailabilityZone']]. *)
Record instance : Type :=
  MkInstance { InstanceId : string; InstanceType : string; AvailabilityZone : string }.

(** [zone[:-1]]: the zone name without its last character. *)
Definition region_of (zone : string) : string :=
  String.substring 0 (String.length zone - 1) zone.

End Aws.

(** [int(x)] on a number: truncation towards zero. *)
Definition py_int (x : Q) : Z := Z.quot (Qnum x) (Z.pos (Qden x)).

(** ** scripts/collect_realtime_data.py *)

Module RealTimeDataCollector.

(** The dictionary literal [instance_base_power] (watts). *)
Definition instance_base_power : gmap string Q :=
  {[ "t2.micro" := 2; "t2.small" := 4; "t2.medium" := 8;
     "t3.micro" := 2; "t3.small" := 4; "t3.medium" := 8 ]}.

Definition estimate_energy_consumption
    (cpu_utilization : Q) (instance_type : string) : M Q :=
  let base_power := default 5 (instance_base_power !! instance_type) in
  let max_power := base_power * 2.5 in
  let power_consumption :=
    base_power + (max_power - base_power) * (cpu_utilization / 100) in
  mret power_consumption.

(** The dictionary literal [carbon_factors] (gCO2/kWh). *)
Definition carbon_factors : gmap string Q :=
  {[ "us-east-1" := 400; "eu-west-1" := 200; "ap-southeast-1" := 600 ]}.

Definition estimate_carbon_footprint
    (energy_consumption : Q) (region : string) : M Q :=
  let factor := default 500 (carbon_factors !! region) in
  mret ((energy_consumption / 1000) * factor).

(** The list [metric_names] of [get_instance_metrics]. *)
Definition metric_names : list string :=
  ["CPUUtilization"; "MemoryUtilization"; "NetworkIn"; "NetworkOut";
   "DiskReadBytes"; "DiskWriteBytes"].

(** The value stored for one metric (lines 59-62): the average of the
    first datapoint of the answer, or 0 when the answer has none. *)
Definition first_average (datapoints : list Aws.cw_datapoint) : Q :=
  match datapoints with
  | d :: _ => Aws.Average d
  | [] => 0
  end.

(** [max(1, int(cpu_utilization / 20))], the "simple estimation" of the
    workload demand on line 142. *)
Definition workload_demand (cpu_utilization : Q) : Z :=
  Z.max 1 (py_int (cpu_utilization / 20)).

(** A record appended to [workload_data]. *)
Record workload_row : Type := WorkloadRow {
  w_timestamp : Z;
  w_cpu_utilization : Q;
  w_memory_usage : Q;
  w_network_in : Q;
  w_network_out : Q;
  w_workload_demand : Z }.

(** A record appended to [energy_metrics]. *)
Record energy_row : Type := EnergyRow {
  e_timestamp : Z;
  e_instance_id : string;
  e_instance_type : string;
  e_region : string;
  e_energy_consumption : Q;
  e_carbon_footprint : Q;
  e_cpu_utilization : Q;
  e_memory_usage : Q }.

Section Collector.

(** The collaborators of the collector: the CloudWatch query (metric name,
    instance id, start and end of the window, answering the datapoints of
    the response), the listing of running instances by reservation, the
    clock, and the two CSV files with the test for their existence.  Time
    instants are seconds; an ISO timestamp is identified with its instant. *)
Variable get_metric_statistics : string -> string -> Z -> Z -> M (list Aws.cw_datapoint).
Variable describe_instances : M (list (list Aws.instance)).
Variable utcnow : M Z.
Variable path_exists : string -> M bool.
Variable workload_to_csv : string -> bool -> list workload_row -> M unit.
Variable energy_to_csv : string -> bool -> list energy_row -> M unit.
Variable workload_csv energy_csv : string.

(** The [for metric_name in metric_names] loop: one query per name. *)
Fixpoint read_metrics (names : list string) (instance_id : string)
    (start_time end_time : Z) (metrics : gmap string Q) : M (gmap string Q) :=
  match names with
  | [] => mret metrics
  | metric_name :: names' =>
      datapoints ← get_metric_statistics metric_name instance_id start_time end_time;
      read_metrics names' instance_id start_time end_time
        (<[metric_name := first_average datapoints]> metrics)
  end.

Definition get_instance_metrics (instance_id : string) (start_time end_time : Z)
    : M (option (gmap string Q)) :=
  try_except
    (metrics ← read_metrics metric_names instance_id start_time end_time ∅;
     mret (Some metrics))
    (λ e,
     logger_error ("Failed to get metrics for instance " +:+ instance_id +:+ ": " +:+ str e);;
     mret None).

(** The body of the inner [for instance] loop: the two records appended
    for one instance, or nothing when [if metrics:] fails ([None], or a
    dictionary without entries). *)
Definition instance_rows (end_time start_time : Z) (instance : Aws.instance)
    : M (option (workload_row * energy_row)) :=
  let instance_id := Aws.InstanceId instance in
  let instance_type := Aws.InstanceType instance in
  let region := Aws.region_of (Aws.AvailabilityZone instance) in
  metrics ← get_instance_metrics instance_id start_time end_time;
  match metrics with
  | Some metrics =>
      if decide (size metrics = 0%nat) then mret None
      else
        cpu_utilization ← getitem metrics "CPUUtilization";
        energy_consumption ← estimate_energy_consumption cpu_utilization instance_type;
        carbon_footprint ← estimate_carbon_footprint energy_consumption region;
        let memory_usage := default 0 (metrics !! "MemoryUtilization") in
        network_in ← getitem metrics "NetworkIn";
        network_out ← getitem metrics "NetworkOut";
        mret (Some
                (WorkloadRow end_time cpu_utilization memory_usage
                             network_in network_out
                             (workload_demand cpu_utilization),
                 EnergyRow end_time instance_id instance_type region
                           energy_consumption carbon_footprint
                           cpu_utilization memory_usage))
  | None => mret None
  end.

(** The two nested loops over reservations and instances, filling
    [workload_data] and [energy_metrics] in the order of the listing. *)
Fixpoint collect_rows (end_time start_time : Z) (instances : list Aws.instance)
    : M (list workload_row * list energy_row) :=
  match instances with
  | [] => mret ([], [])
  | instance :: instances' =>
      rows ← instance_rows end_time start_time instance;
      later ← collect_rows end_time start_time instances';
      mret (match rows with
            | Some (w, e) => (w :: later.1, e :: later.2)
            | None => later
            end)
  end.

Definition collect_and_save_data (duration_minutes : Z) : M unit :=
  try_except
    (instances ← describe_instances;
     end_time ← utcnow;
     let start_time := (end_time - duration_minutes * 60)%Z in
     data ← collect_rows end_time start_time (concat instances);
     let workload_data := data.1 in
     let energy_metrics := data.2 in
     match workload_data with
     | _ :: _ =>
         present ← path_exists workload_csv;
         workload_to_csv workload_csv (negb present) workload_data
     | [] => mret tt
     end;;
     match energy_metrics with
     | _ :: _ =>
         present ← path_exists energy_csv;
         energy_to_csv energy_csv (negb present) energy_metrics
     | [] => mret tt
     end;;
     logger_info ("Collected data for " +:+ pretty (length workload_data) +:+ " instances"))
    (λ e, logger_error ("Failed to collect and save data: " +:+ str e)).

End Collector.

End RealTimeDataCollector.

(** ** The energy estimate in machine arithmetic *)

Module Binary64.

(** [estimate_energy_consumption] once more, with Python's [float] as the
    binary64 numbers of the machine and its operations rounded as the
    machine rounds them; the integers of the table and the constant 100
    are converted exactly. *)
Definition instance_base_power : gmap string float :=
  {[ "t2.micro" := 2%float; "t2.small" := 4%float; "t2.medium" := 8%float;
     "t3.micro" := 2%float; "t3.small" := 4%float; "t3.medium" := 8%float ]}.

Definition estimate_energy_consumption
    (cpu_utilization : float) (instance_type : string) : M float :=
  let base_power := default 5%float (instance_base_power !! instance_type) in
  let max_power := (base_power * 2.5)%float in
  let power_consumption :=
    (base_power + (max_power - base_power) * (cpu_utilization / 100))%float in
  mret power_consumption.

End Binary64.

(** ** src/energy_monitoring.py *)

Module EnergyMonitor.

(** One entry of a metric series built by [get_instance_metrics]:
    [{'timestamp': ..., 'value': ...}]. *)
Record datapoint : Type := Datapoint { timestamp : Z; value : Q }.

Definition sum (xs : list Q) : Q := foldr Qplus 0 xs.

(** [Series.mean()] of a non-empty column. *)
Definition mean (xs : list Q) : Q := sum xs / inject_Z (Z.of_nat (length xs)).

(** [metrics] maps a metric name to its series.  [pd.DataFrame(series)]
    is [empty] exactly when the series has no entry, so the test
    [if not cpu_utilization.empty] is a case distinction on the list. *)
Definition calculate_energy_consumption
    (metrics : gmap string (list datapoint)) : M Q :=
  try_except
    (cpu_utilization ← getitem metrics "CPUUtilization";
     match cpu_utilization with
     | _ :: _ =>
         let avg_cpu := mean (value <$> cpu_utilization) in
         let base_power := 100 in
         let max_power := 200 in
         mret (base_power + (max_power - base_power) * (avg_cpu / 100))
     | [] => mret 0
     end)
    (λ e,
     logger_error ("Failed to calculate energy consumption: " +:+ str e);;
     mret 0).

Definition carbon_factors : gmap string Q :=
  {[ "us-east-1" := 400; "eu-west-1" := 200; "ap-southeast-1" := 600 ]}.

Definition estimate_carbon_footprint
    (energy_consumption : Q) (region : string) : M Q :=
  try_except
    (let factor := default 500 (carbon_factors !! region) in
     mret ((energy_consumption / 1000) * factor))
    (λ e,
     logger_error ("Failed to estimate carbon footprint: " +:+ str e);;
     mret 0).

(** The dictionary [metrics] of [get_instance_metrics] before the loop:
    five names, each with an empty series. *)
Definition empty_metrics : gmap string (list datapoint) :=
  {[ "CPUUtilization" := []; "NetworkIn" := []; "NetworkOut" := [];
     "DiskReadBytes" := []; "DiskWriteBytes" := [] ]}.

(** Its keys in insertion order, as [metrics.keys()] iterates them. *)
Definition metric_names : list string :=
  ["CPUUtilization"; "NetworkIn"; "NetworkOut"; "DiskReadBytes"; "DiskWriteBytes"].

(** [{'timestamp': datapoint['Timestamp'], 'value': datapoint['Average']}]. *)
Definition entry_of (d : Aws.cw_datapoint) : datapoint :=
  Datapoint (Aws.Timestamp d) (Aws.Average d).

(** A record appended to [monitoring_data]. *)
Record monitoring_record : Type := MonitoringRecord {
  m_instance_id : string;
  m_instance_type : string;
  m_region : string;
  m_energy_consumption : Q;
  m_carbon_footprint : Q;
  m_metrics : gmap string (list datapoint) }.

Section Monitor.

(** The collaborators of the monitor: the CloudWatch query, the listing of
    running instances, the clock, and the Prometheus gauges (gauge name,
    label values, value). *)
Variable get_metric_statistics : string -> string -> Z -> Z -> M (list Aws.cw_datapoint).
Variable describe_instances : M (list (list Aws.instance)).
Variable utcnow : M Z.
Variable gauge_set : string -> list string -> Q -> M unit.

(** The loop over [metrics.keys()]: every datapoint of the answer is
    appended to the series stored under the metric name. *)
Fixpoint read_series (names : list string) (instance_id : string)
    (start_time end_time : Z) (metrics : gmap string (list datapoint))
    : M (gmap string (list datapoint)) :=
  match names with
  | [] => mret metrics
  | metric_name :: names' =>
      datapoints ← get_metric_statistics metric_name instance_id start_time end_time;
      read_series names' instance_id start_time end_time
        (alter (λ series, series ++ (entry_of <$> datapoints)) metric_name metrics)
  end.

Definition get_instance_metrics (instance_id : string) (hours : Z)
    : M (option (gmap string (list datapoint))) :=
  try_except
    (end_time ← utcnow;
     let start_time := (end_time - hours * 3600)%Z in
     metrics ← read_series metric_names instance_id start_time end_time empty_metrics;
     mret (Some metrics))
    (λ e,
     logger_error ("Failed to get instance metrics: " +:+ str e);;
     mret None).

(** The body of the inner loop of [monitor_instances] for one instance. *)
Definition monitor_instance (instance : Aws.instance) : M (option monitoring_record) :=
  let instance_id := Aws.InstanceId instance in
  let instance_type := Aws.InstanceType instance in
  let region := Aws.region_of (Aws.AvailabilityZone instance) in
  metrics ← get_instance_metrics instance_id 1;
  match metrics with
  | Some metrics =>
      if decide (size metrics = 0%nat) then mret None
      else
        energy_consumption ← calculate_energy_consumption metrics;
        carbon_footprint ← estimate_carbon_footprint energy_consumption region;
        gauge_set "instance_energy_consumption" [instance_id; instance_type]
                  energy_consumption;;
        gauge_set "instance_carbon_footprint" [instance_id; region]
                  carbon_footprint;;
        mret (Some (MonitoringRecord instance_id instance_type region
                                     energy_consumption carbon_footprint metrics))
  | None => mret None
  end.

Fixpoint monitor_each (instances : list Aws.instance) : M (list monitoring_record) :=
  match instances with
  | [] => mret []
  | instance :: instances' =>
      record ← monitor_instance instance;
      later ← monitor_each instances';
      mret (match record with
            | Some r => r :: later
            | None => later
            end)
  end.

Definition monitor_instances : M (list monitoring_record) :=
  try_except
    (instances ← describe_instances;
     monitor_each (concat instances))
    (λ e,
     logger_error ("Failed to monitor instances: " +:+ str e);;
     mret []).

End Monitor.

End EnergyMonitor.

(** ** src/workload_allocator.py *)

Module WorkloadAllocator.

(** The float that [np.mean] returns, as comparisons see it: a number,
    given by its exact value, or NaN, the mean of no value at all. *)
Inductive npfloat : Type :=
| Num (q : Q)
| NaN.

(** The dictionary returned by [get_instance_energy_metrics]:
    [{'instance_id': ..., 'energy_consumption': ...}]. *)
Record instance_metric : Type :=
  InstanceMetric { instance_id : string; energy_consumption : npfloat }.

(** The dictionary returned by [allocate_workload]; [status] is its
    ['status'] entry. *)
Inductive allocation : Type :=
| Success (allocated_instance : string) (energy : npfloat)
| Error (message : string).

Definition status (r : allocation) : string :=
  match r with
  | Success _ _ => "success"
  | Error _ => "error"
  end.

(** [a < b] on numbers. *)
Definition lt_num (a b : Q) : bool :=
  match a ?= b with
  | Lt => true
  | _ => false
  end.

(** [a < b] on floats, the test performed by [min]: false as soon as one
    side is NaN. *)
Definition lt_float (a b : npfloat) : bool :=
  match a, b with
  | Num x, Num y => lt_num x y
  | _, _ => false
  end.

(** [a <= b] on floats, false as soon as one side is NaN. *)
Definition le_float (a b : npfloat) : bool :=
  match a, b with
  | Num x, Num y => Qle_bool x y
  | _, _ => false
  end.

(** The scan of the builtin [min(iterable, key=...)] once its first item
    [best] is taken: a later item replaces the current one only when its
    key is strictly smaller. *)
Fixpoint min_scan {A} (key : A -> npfloat) (best : A) (rest : list A) : A :=
  match rest with
  | [] => best
  | x :: rest' => min_scan key (if lt_float (key x) (key best) then x else best) rest'
  end.

(** [r] sits at position [i] of [l], its key is [<=] the key of every item
    of [l], and [<] the key of every item before position [i]. *)
Definition first_min_at {A} (key : A -> npfloat) (l : list A) (i : nat) (r : A) : Prop :=
  l !! i = Some r /\
  (forall x, x ∈ l -> le_float (key r) (key x) = true) /\
  (forall j y, (j < i)%nat -> l !! j = Some y -> lt_float (key r) (key y) = true).

(** Lines 96-112 of [allocate_workload], the selection of the target among
    the gathered [instance_metrics] (the specification's [select_best]). *)
Definition select_best (instance_metrics : list instance_metric) : M allocation :=
  match instance_metrics with
  | first :: rest =>
      let best_instance := min_scan energy_consumption first rest in
      logger_info ("Allocating workload to instance " +:+ instance_id best_instance);;
      mret (Success (instance_id best_instance) (energy_consumption best_instance))
  | [] =>
      mthrow (Exception "No suitable instances found for workload allocation")
  end.

Section Allocate.

(** The cloud collaborators.  [describe_instances] is
    [ec2_client.describe_instances] restricted to running instances, seen
    as the instance ids of each reservation.  [get_instance_energy_metrics]
    wraps the CloudWatch query and [np.mean]; it answers [None], after
    logging, when the query fails.  Both may log and the first may raise,
    so they are computations in [M]. *)
Variable describe_instances : M (list (list string)).
Variable get_instance_energy_metrics : string -> M (option instance_metric).

(** The two nested [for] loops filling [instance_metrics]. *)
Fixpoint gather (ids : list string) : M (list instance_metric) :=
  match ids with
  | [] => mret []
  | id :: ids' =>
      metrics ← get_instance_energy_metrics id;
      later ← gather ids';
      mret (match metrics with
            | Some m => m :: later
            | None => later
            end)
  end.

Definition on_failure (e : exn) : M allocation :=
  logger_error ("Failed to allocate workload: " +:+ str e);;
  mret (Error (str e)).

Definition allocate_workload (workload : gmap string pyobj) : M allocation :=
  try_except
    (instances ← describe_instances;
     instance_metrics ← gather (concat instances);
     select_best instance_metrics)
    on_failure.

End Allocate.

(** [scale_resources]: [config] is the dictionary loaded from the
    configuration file ([self.config]). *)
Definition scale_resources (config metrics : gmap string Q) : M unit :=
  try_except
    (if lt_num (default 80 (config !! "energy_threshold"))
               (default 0 (metrics !! "energy_consumption"))
     then logger_info "High energy consumption detected, initiating scale out"
     else mret tt)
    (λ e, logger_error ("Failed to scale resources: " +:+ str e)).

Section Lookup.

(** What [np.mean] computes on one sample or more: the sum as numpy
    rounds it, divided by the count, a float given here by its exact
    value.  It is left open, so that what is proved of the candidates does
    not depend on how the sum is rounded. *)
Variable float_mean : list Q -> Q.

(** [np.mean(values)]: NaN (with a warning, not an exception) for no
    value, the mean otherwise. *)
Definition np_mean (values : list Q) : npfloat :=
  match values with
  | [] => NaN
  | _ :: _ => Num (float_mean values)
  end.

(** The collaborators of [get_instance_energy_metrics]: the clock read as
    a POSIX timestamp, and CloudWatch's [get_metric_data] for the CPU
    utilisation of an instance over a window, answering
    [response['MetricDataResults'][0]['Values']]. *)
Variable utcnow_timestamp : M Q.
Variable get_metric_data : string -> Q -> Q -> M (list Q).

(** The statements of the [try] block up to the subscripts (lines 52-71):
    the two clock readings, then the query. *)
Definition query_values (instance_id : string) : M (list Q) :=
  start_reading ← utcnow_timestamp;
  end_time ← utcnow_timestamp;
  get_metric_data instance_id (start_reading - 3600) end_time.

Definition get_instance_energy_metrics (instance_id : string)
    : M (option instance_metric) :=
  try_except
    (values ← query_values instance_id;
     mret (Some (InstanceMetric instance_id (np_mean values))))
    (λ e,
     logger_error ("Failed to get energy metrics: " +:+ str e);;
     mret None).

End Lookup.

(** What one lookup contributes, given the outcome of its query: a
    candidate when the query returned, an error record when it raised. *)
Definition candidate_of (float_mean : list Q -> Q) (instance_id : string)
    (answer : outcome (list Q)) : option instance_metric :=
  match answer with
  | Return values => Some (InstanceMetric instance_id (np_mean float_mean values))
  | Raise _ => None
  end.

Definition failure_of (answer : outcome (list Q)) : option (level * string) :=
  match answer with
  | Return _ => None
  | Raise e => Some (ERROR, "Failed to get energy metrics: " +:+ str e)
  end.

End WorkloadAllocator.

Import WorkloadAllocator.

(** ** src/api_integration.py *)

Module ApiIntegration.

(** The mock table [sustainability_data]; each value is the dictionary
    with the entries 'renewable_percentage' and 'carbon_intensity'. *)
Definition region_entry (renewable_percentage carbon_intensity : Q) : gmap string Q :=
  {[ "renewable_percentage" := renewable_percentage;
     "carbon_intensity" := carbon_intensity ]}.

Definition sustainability_data : gmap string (gmap string Q) :=
  {[ "us-east-1" := region_entry 35 400;
     "eu-west-1" := region_entry 60 200;
     "ap-southeast-1" := region_entry 25 600 ]}.

Definition get_sustainability_metrics (region : string) : M (gmap string Q) :=
  try_except
    (mret (default (region_entry 30 500) (sustainability_data !! region)))
    (λ e,
     logger_error ("Failed to get sustainability metrics: " +:+ str e);;
     mret ∅).

(** What the client of a route receives: the returned body, or the
    HTTPException that leaves the route, as status code and detail. *)
Inductive response (A : Type) : Type :=
| Ok (body : A)
| HttpError (status_code : Z) (detail : string).
Arguments Ok {A} body.
Arguments HttpError {A} status_code detail.

(** A value read with [metrics.get(key, 0)] from the monitor's metrics:
    the stored series, or the number 0. *)
Inductive field : Type :=
| Series (series : list EnergyMonitor.datapoint)
| Number (q : Q).

Definition get_or_zero (metrics : gmap string (list EnergyMonitor.datapoint))
    (key : string) : field :=
  match metrics !! key with
  | Some series => Series series
  | None => Number 0
  end.

(** The dictionary returned by the route [get_energy_metrics]. *)
Record metrics_response : Type := MetricsResponse {
  r_instance_id : string;
  r_energy_consumption : field;
  r_carbon_footprint : field;
  r_timestamp : Z }.

Section Routes.

(** The collaborators of the routes: the constructors [WorkloadAllocator()],
    [EnergyMonitor()] and [APIIntegration()] (they load the configuration
    and create the clients, and may raise), the cloud services and the
    clock.  [http_exception_str status detail] is the text [str(e)] of an
    [HTTPException]; one raised inside a [try] block is handled through
    that text only. *)
Variable new_allocator : M unit.
Variable new_monitor : M unit.
Variable new_api : M unit.
Variable list_instance_ids : M (list (list string)).
Variable get_instance_energy_metrics : string -> M (option instance_metric).
Variable get_metric_statistics : string -> string -> Z -> Z -> M (list Aws.cw_datapoint).
Variable utcnow : M Z.
Variable http_exception_str : Z -> string -> string.

(** POST /workload/allocate; [workload] is the dictionary built from the
    fields of the request. *)
Definition allocate_workload (workload : gmap string pyobj) : M (response allocation) :=
  try_except
    (new_allocator;;
     result ← WorkloadAllocator.allocate_workload
                list_instance_ids get_instance_energy_metrics workload;
     mret (Ok result))
    (λ e,
     logger_error ("Workload allocation failed: " +:+ str e);;
     mret (HttpError 500 (str e))).

(** GET /metrics/energy/{instance_id}. *)
Definition get_energy_metrics (instance_id : string) : M (response metrics_response) :=
  try_except
    (new_monitor;;
     metrics ← EnergyMonitor.get_instance_metrics
                 get_metric_statistics utcnow instance_id 1;
     match metrics with
     | Some metrics =>
         if decide (size metrics = 0%nat)
         then mthrow (Exception (http_exception_str 404 "Instance not found"))
         else
           now ← utcnow;
           mret (Ok (MetricsResponse instance_id
                       (get_or_zero metrics "energy_consumption")
                       (get_or_zero metrics "carbon_footprint")
                       now))
     | None => mthrow (Exception (http_exception_str 404 "Instance not found"))
     end)
    (λ e,
     logger_error ("Failed to get energy metrics: " +:+ str e);;
     mret (HttpError 500 (str e))).

(** GET /metrics/sustainability/{region}. *)
Definition get_region_sustainability (region : string) : M (response (gmap string Q)) :=
  try_except
    (new_api;;
     metrics ← get_sustainability_metrics region;
     if decide (size metrics = 0%nat)
     then mthrow (Exception (http_exception_str 404
                               "Sustainability metrics not found for region"))
     else mret (Ok metrics))
    (λ e,
     logger_error ("Failed to get sustainability metrics: " +:+ str e);;
     mret (HttpError 500 (str e))).

End Routes.

End ApiIntegration.

(** * Properties *)

(** ** The static tables *)

(** Enumerates the entries of a dictionary literal: from
    [H : table !! k = Some v], one goal per entry with [k] and [v]
    replaced by the entry's key and value. *)
Ltac table_cases H :=
  apply elem_of_map_to_list in H; vm_compute in H;
  repeat (apply elem_of_cons in H; destruct H as [H | H];
          [inversion H; subst; clear H |]);
  [.. | inversion H].

(** Enumerates the members of an explicit list. *)
Ltac list_cases H :=
  repeat (apply elem_of_cons in H; destruct H as [H | H];
          [inversion H; subst; clear H |]);
  [.. | inversion H].

(** A lookup succeeds exactly on the six names written in the literal:
    the match is on the whole string. *)
Lemma instance_base_power_exact_match (instance_type : string) (b : Q) :
  RealTimeDataCollector.instance_base_power !! instance_type = Some b <->
  (instance_type, b) ∈
    [("t2.micro", 2); ("t2.small", 4); ("t2.medium", 8);
     ("t3.micro", 2); ("t3.small", 4); ("t3.medium", 8)].
Proof.
  split; intros H.
  - table_cases H; repeat constructor.
  - list_cases H; reflexivity.
Qed.

Lemma instance_base_power_entries (instance_type : string) (b : Q) :
  RealTimeDataCollector.instance_base_power !! instance_type = Some b ->
  b = 2 \/ b = 4 \/ b = 8.
Proof. intros H. table_cases H; auto. Qed.

Lemma base_power_range (instance_type : string) :
  let base := default 5 (RealTimeDataCollector.instance_base_power !! instance_type) in
  2 <= base /\ base <= 8.
Proof.
  simpl. destruct (_ !! instance_type) as [b |] eqn:E; simpl.
  - destruct (instance_base_power_entries _ _ E) as [-> | [-> | ->]]; lra.
  - lra.
Qed.

Lemma carbon_factors_exact_match (region : string) (f : Q) :
  RealTimeDataCollector.carbon_factors !! region = Some f <->
  (region, f) ∈ [("us-east-1", 400); ("eu-west-1", 200); ("ap-southeast-1", 600)].
Proof.
  split; intros H.
  - table_cases H; repeat constructor.
  - list_cases H; reflexivity.
Qed.

Lemma carbon_factors_entries (region : string) (f : Q) :
  RealTimeDataCollector.carbon_factors !! region = Some f ->
  f = 400 \/ f = 200 \/ f = 600.
Proof. intros H. table_cases H; auto. Qed.

Lemma carbon_factor_range (region : string) :
  let factor := default 500 (RealTimeDataCollector.carbon_factors !! region) in
  200 <= factor /\ factor <= 600.
Proof.
  simpl. destruct (_ !! region) as [f |] eqn:E; simpl.
  - destruct (carbon_factors_entries _ _ E) as [-> | [-> | ->]]; lra.
  - lra.
Qed.

(** The monitoring service carries its own copy of the carbon table; the
    two copies hold the same entries. *)
Lemma carbon_factors_same :
  EnergyMonitor.carbon_factors = RealTimeDataCollector.carbon_factors.
Proof. reflexivity. Qed.

(** ** Running the estimation methods *)

Lemma estimate_energy_consumption_yields (cpu_utilization : Q) (instance_type : string) :
  let base := default 5 (RealTimeDataCollector.instance_base_power !! instance_type) in
  yields (RealTimeDataCollector.estimate_energy_consumption cpu_utilization instance_type)
         (base + (base * 2.5 - base) * (cpu_utilization / 100)).
Proof. intros base w. reflexivity. Qed.

Lemma collector_carbon_yields (energy : Q) (region : string) :
  yields (RealTimeDataCollector.estimate_carbon_footprint energy region)
         (energy / 1000 * default 500 (RealTimeDataCollector.carbon_factors !! region)).
Proof. intros w. reflexivity. Qed.

(** The handler of the monitoring variant is never entered: its [try]
    body cannot raise. *)
Lemma monitor_carbon_yields (energy : Q) (region : string) :
  yields (EnergyMonitor.estimate_carbon_footprint energy region)
         (energy / 1000 * default 500 (RealTimeDataCollector.carbon_factors !! region)).
Proof. intros w. reflexivity. Qed.

Lemma yields_num_intro (m : M Q) (v q : Q) :
  yields m v -> v == q -> yields_num m q.
Proof. intros Hm Hq. exists v. split; assumption. Qed.

Lemma yields_functional {A} (m : M A) (v v' : A) :
  yields m v -> yields m v' -> v = v'.
Proof.
  intros H H'. specialize (H initial_world). specialize (H' initial_world).
  congruence.
Qed.

(** ** Carbon estimation: the scale of the result *)

(** Both variants divide the energy by one thousand only, whatever the
    region: the result is a thousand times [(energy / 1_000_000) * factor]. *)
Lemma estimate_carbon_footprint_per_thousand (energy : Q) (region : string) :
  let factor := default 500 (RealTimeDataCollector.carbon_factors !! region) in
  yields_num (RealTimeDataCollector.estimate_carbon_footprint energy region)
             (1000 * (energy / 1000000 * factor)) /\
  yields_num (EnergyMonitor.estimate_carbon_footprint energy region)
             (1000 * (energy / 1000000 * factor)).
Proof.
  intros factor. split.
  - eapply yields_num_intro; [apply collector_carbon_yields |].
    fold factor. field.
  - eapply yields_num_intro; [apply monitor_carbon_yields |].
    fold factor. field.
Qed.

(** Hence the two figures coincide for no energy other than zero. *)
Lemma estimate_carbon_footprint_off_scale (energy : Q) (region : string) (v : Q) :
  yields (RealTimeDataCollector.estimate_carbon_footprint energy region) v ->
  let factor := default 500 (RealTimeDataCollector.carbon_factors !! region) in
  v == energy / 1000000 * factor <-> energy == 0.
Proof.
  intros Hv factor.
  rewrite (yields_functional _ _ _ Hv (collector_carbon_yields energy region)).
  fold factor.
  destruct (carbon_factor_range region) as [Hlo Hhi]. fold factor in Hlo, Hhi.
  assert (E1 : energy / 1000 * factor == energy * factor * 0.001) by field.
  assert (E2 : energy / 1000000 * factor == energy * factor * 0.000001) by field.
  rewrite E1, E2. split; intros H.
  - assert (Hz : energy * factor == 0) by lra.
    apply Qmult_integral in Hz as [Hz | Hz]; [exact Hz | lra].
  - rewrite H. ring.
Qed.

(** C1: [estimate_carbon(14.0, "us-east-1")].  With the table factor 400
    the code returns [(14 / 1000) * 400 = 5.6] in both variants, which is
    not [(14 / 1_000_000) * 400 = 0.0056]. *)
Theorem estimate_carbon_footprint_14_us_east_1 :
  exists v,
    yields (RealTimeDataCollector.estimate_carbon_footprint 14 "us-east-1") v /\
    yields (EnergyMonitor.estimate_carbon_footprint 14 "us-east-1") v /\
    RealTimeDataCollector.carbon_factors !! "us-east-1" = Some 400 /\
    v == 5.6 /\
    ~ v == 14 / 1000000 * 400 /\
    ~ v == 0.0056.
Proof.
  eexists. split; [apply collector_carbon_yields |].
  split; [apply monitor_carbon_yields |].
  split; [reflexivity |].
  repeat split; vm_compute; congruence.
Qed.

(** ** Energy estimation *)

(** C3: for every utilisation in [0,100] and every instance type, the
    estimate is [base + (base * 2.5 - base) * (cpu / 100)], where [base] is
    the table entry stored under exactly that type name and 5 when there is
    none; in particular the estimate for 50% on "t3.medium" (base 8) is 14
    watts. *)
Theorem estimate_energy_formula :
  (forall (cpu_utilization : Q) (instance_type : string),
      0 <= cpu_utilization <= 100 ->
      let base :=
        match RealTimeDataCollector.instance_base_power !! instance_type with
        | Some b => b
        | None => 5
        end in
      let scale_multiplier := 2.5 in
      yields_num
        (RealTimeDataCollector.estimate_energy_consumption cpu_utilization instance_type)
        (base + (base * scale_multiplier - base) * (cpu_utilization / 100))) /\
  RealTimeDataCollector.instance_base_power !! "t3.medium" = Some 8 /\
  yields_num (RealTimeDataCollector.estimate_energy_consumption 50 "t3.medium") 14.
Proof.
  split; [| split].
  - intros cpu ty _ base scale.
    eapply yields_num_intro; [apply estimate_energy_consumption_yields |].
    subst base scale. destruct (_ !! ty); reflexivity.
  - reflexivity.
  - eapply yields_num_intro; [apply estimate_energy_consumption_yields |].
    reflexivity.
Qed.

Lemma estimate_energy_formula_witness :
  0 <= 50 <= 100 /\
  yields_num (RealTimeDataCollector.estimate_energy_consumption 50 "t3.medium")
             (8 + (8 * 2.5 - 8) * (50 / 100)).
Proof.
  split; [split; discriminate |].
  apply (proj1 estimate_energy_formula 50 "t3.medium").
  split; discriminate.
Defined.

(** The two ends of the interpolation: the base power at 0% and
    [base * 2.5] at 100%, for every instance type. *)
Lemma estimate_energy_endpoints (instance_type : string) :
  let base := default 5 (RealTimeDataCollector.instance_base_power !! instance_type) in
  yields_num (RealTimeDataCollector.estimate_energy_consumption 0 instance_type) base /\
  yields_num (RealTimeDataCollector.estimate_energy_consumption 100 instance_type)
             (base * 2.5).
Proof.
  intros base.
  split; (eapply yields_num_intro; [apply estimate_energy_consumption_yields |]);
    fold base; field.
Qed.

(** C5: a type name absent from the power table is estimated with base 5
    and multiplier 2.5 (5 watts idle, 12.5 watts at full load), a region
    absent from the carbon table with 500 g/kWh; both calls return
    normally, in either variant of the carbon estimate. *)
Theorem unknown_keys_fall_back :
  (forall (instance_type : string) (cpu_utilization : Q),
      RealTimeDataCollector.instance_base_power !! instance_type = None ->
      yields_num
        (RealTimeDataCollector.estimate_energy_consumption cpu_utilization instance_type)
        (5 + (5 * 2.5 - 5) * (cpu_utilization / 100)) /\
      yields_num (RealTimeDataCollector.estimate_energy_consumption 0 instance_type) 5 /\
      yields_num (RealTimeDataCollector.estimate_energy_consumption 100 instance_type) 12.5) /\
  (forall (region : string) (energy : Q),
      RealTimeDataCollector.carbon_factors !! region = None ->
      EnergyMonitor.carbon_factors !! region = None /\
      yields_num (RealTimeDataCollector.estimate_carbon_footprint energy region)
                 (energy / 1000 * 500) /\
      yields_num (EnergyMonitor.estimate_carbon_footprint energy region)
                 (energy / 1000 * 500)).
Proof.
  split.
  - intros ty cpu Hty.
    repeat split;
      (eapply yields_num_intro; [apply estimate_energy_consumption_yields |]);
      rewrite Hty; simpl; reflexivity.
  - intros region energy Hr.
    split; [rewrite carbon_factors_same; exact Hr |].
    split.
    + eapply yields_num_intro; [apply collector_carbon_yields |].
      rewrite Hr. reflexivity.
    + eapply yields_num_intro; [apply monitor_carbon_yields |].
      rewrite Hr. reflexivity.
Qed.

Lemma unknown_keys_fall_back_witness :
  (RealTimeDataCollector.instance_base_power !! "m5.large" = None /\
   yields_num (RealTimeDataCollector.estimate_energy_consumption 100 "m5.large") 12.5) /\
  (RealTimeDataCollector.carbon_factors !! "sa-east-1" = None /\
   yields_num (EnergyMonitor.estimate_carbon_footprint 14 "sa-east-1")
              (14 / 1000 * 500)).
Proof.
  split.
  - split; [reflexivity |].
    apply (proj1 unknown_keys_fall_back "m5.large" 100). reflexivity.
  - split; [reflexivity |].
    apply (proj2 unknown_keys_fall_back "sa-east-1" 14). reflexivity.
Defined.

Lemma percent (x : Q) : x / 100 == x * 0.01.
Proof. field. Qed.

(** C6: for a fixed instance type the estimate does not decrease when the
    utilisation grows within [0,100], and every estimate in that range
    lies between the base power and [max_power = base * 2.5]. *)
Theorem estimate_energy_monotone_bounded
    (instance_type : string) (cpu1 cpu2 : Q) :
  0 <= cpu1 -> cpu1 <= cpu2 -> cpu2 <= 100 ->
  let base_power :=
    default 5 (RealTimeDataCollector.instance_base_power !! instance_type) in
  let max_power := base_power * 2.5 in
  exists v1 v2,
    yields (RealTimeDataCollector.estimate_energy_consumption cpu1 instance_type) v1 /\
    yields (RealTimeDataCollector.estimate_energy_consumption cpu2 instance_type) v2 /\
    v1 <= v2 /\
    (base_power <= v1 /\ v1 <= max_power) /\
    (base_power <= v2 /\ v2 <= max_power).
Proof.
  intros H0 H12 H100 base_power max_power.
  do 2 eexists.
  split; [apply estimate_energy_consumption_yields |].
  split; [apply estimate_energy_consumption_yields |].
  fold base_power. subst max_power.
  destruct (base_power_range instance_type) as [Hlo Hhi].
  fold base_power in Hlo, Hhi.
  generalize dependent base_power. intros b Hlo Hhi.
  rewrite !percent. repeat split; nra.
Qed.

Lemma estimate_energy_monotone_bounded_witness :
  exists v1 v2,
    yields (RealTimeDataCollector.estimate_energy_consumption 25 "t2.small") v1 /\
    yields (RealTimeDataCollector.estimate_energy_consumption 75 "t2.small") v2 /\
    v1 <= v2 /\ (4 <= v1 /\ v1 <= 10) /\ (4 <= v2 /\ v2 <= 10).
Proof.
  destruct (estimate_energy_monotone_bounded "t2.small" 25 75)
    as (v1 & v2 & H1 & H2 & Hle & [Ha Hb] & [Hc Hd]);
    [discriminate | discriminate | discriminate |].
  exists v1, v2.
  split; [exact H1 |]. split; [exact H2 |]. split; [exact Hle |].
  split; split.
  - exact Ha.
  - eapply Qle_trans; [exact Hb |]. vm_compute. discriminate.
  - exact Hc.
  - eapply Qle_trans; [exact Hd |]. vm_compute. discriminate.
Defined.

(** C8, as stated, fails below zero in the arithmetic of the machine: for
    the utilisation -1e-16 (the binary64 number -0x1.cd2b297d889bcp-54) and
    "t3.medium", whose base power is 8, the negative term is lost when it
    is added to 8, and the estimate is exactly 8.0, not a value below the
    base power. *)
Lemma estimate_energy_tiny_negative_is_base :
  exists v,
    Binary64.estimate_energy_consumption (-0x1.cd2b297d889bcp-54)%float "t3.medium"
      initial_world = (Return v, initial_world) /\
    Binary64.instance_base_power !! "t3.medium" = Some 8%float /\
    PrimFloat.ltb (-0x1.cd2b297d889bcp-54) 0 = true /\
    PrimFloat.ltb v 8 = false /\
    PrimFloat.eqb v 8 = true.
Proof.
  eexists. split; [reflexivity |].
  repeat split; vm_compute; reflexivity.
Qed.

(** The machine arithmetic does not clamp either: at 150% the estimate for
    "t3.medium" is 26 watts, above its maximum of 20, and at -50% it is 2
    watts, below its base power of 8. *)
Lemma estimate_energy_binary64_unclamped :
  Binary64.estimate_energy_consumption 150%float "t3.medium" initial_world
  = (Return 26%float, initial_world) /\
  Binary64.estimate_energy_consumption (-50)%float "t3.medium" initial_world
  = (Return 2%float, initial_world).
Proof. split; vm_compute; reflexivity. Qed.

(** C8, amended: outside [0,100] the utilisation is not clamped: the same
    linear formula is applied, so above 100 the estimate exceeds
    [max_power = base * 2.5], and below 0 it is at most the base power
    (it is the base power itself when the negative term is too small to
    survive the rounding of the sum, and below it otherwise). *)
Theorem estimate_energy_unclamped
    (instance_type : string) (cpu_utilization : Q) :
  cpu_utilization < 0 \/ 100 < cpu_utilization ->
  let base_power :=
    default 5 (RealTimeDataCollector.instance_base_power !! instance_type) in
  let max_power := base_power * 2.5 in
  exists v,
    yields (RealTimeDataCollector.estimate_energy_consumption cpu_utilization instance_type) v /\
    v == base_power + (max_power - base_power) * (cpu_utilization / 100) /\
    (100 < cpu_utilization -> max_power < v) /\
    (cpu_utilization < 0 -> v <= base_power).
Proof.
  intros _ base_power max_power.
  eexists. split; [apply estimate_energy_consumption_yields |].
  fold base_power. subst max_power.
  destruct (base_power_range instance_type) as [Hlo Hhi].
  fold base_power in Hlo, Hhi.
  generalize dependent base_power. intros b Hlo Hhi.
  split; [reflexivity |].
  rewrite !percent. split; intros Hc; nra.
Qed.

Lemma estimate_energy_unclamped_witness :
  (exists v,
      yields (RealTimeDataCollector.estimate_energy_consumption 150 "t3.medium") v /\
      v == 26 /\ 20 < v) /\
  (exists v,
      yields (RealTimeDataCollector.estimate_energy_consumption (-50) "t3.medium") v /\
      v == 2 /\ v <= 8).
Proof.
  split.
  - destruct (estimate_energy_unclamped "t3.medium" 150)
      as (v & Hv & Heq & Hhigh & _); [right; reflexivity |].
    exists v. split; [exact Hv |]. split.
    + rewrite Heq. reflexivity.
    + eapply Qle_lt_trans; [| apply Hhigh; reflexivity].
      vm_compute. discriminate.
  - destruct (estimate_energy_unclamped "t3.medium" (-50))
      as (v & Hv & Heq & _ & Hlow); [left; reflexivity |].
    exists v. split; [exact Hv |]. split.
    + rewrite Heq. reflexivity.
    + eapply Qle_trans; [apply Hlow; reflexivity |].
      vm_compute. discriminate.
Defined.

(** ** Carbon estimation *)

(** C7: for a non-negative energy the carbon estimate is non-negative,
    and doubling the energy doubles the estimate for the same region; this
    holds for the collector's and for the monitor's variant. *)
Theorem estimate_carbon_nonneg_linear (energy : Q) (region : string) :
  0 <= energy ->
  (exists v v2,
      yields (RealTimeDataCollector.estimate_carbon_footprint energy region) v /\
      yields (RealTimeDataCollector.estimate_carbon_footprint (2 * energy) region) v2 /\
      0 <= v /\ v2 == 2 * v) /\
  (exists v v2,
      yields (EnergyMonitor.estimate_carbon_footprint energy region) v /\
      yields (EnergyMonitor.estimate_carbon_footprint (2 * energy) region) v2 /\
      0 <= v /\ v2 == 2 * v).
Proof.
  intros He.
  destruct (carbon_factor_range region) as [Hlo Hhi].
  split; do 2 eexists.
  - split; [apply collector_carbon_yields |].
    split; [apply collector_carbon_yields |].
    set (factor := default 500 _) in *.
    split; [| field].
    assert (E : energy / 1000 == energy * 0.001) by field.
    rewrite E. nra.
  - split; [apply monitor_carbon_yields |].
    split; [apply monitor_carbon_yields |].
    set (factor := default 500 _) in *.
    split; [| field].
    assert (E : energy / 1000 == energy * 0.001) by field.
    rewrite E. nra.
Qed.

Lemma estimate_carbon_nonneg_linear_witness :
  exists v v2,
    yields (RealTimeDataCollector.estimate_carbon_footprint 14 "eu-west-1") v /\
    yields (RealTimeDataCollector.estimate_carbon_footprint (2 * 14) "eu-west-1") v2 /\
    0 <= v /\ v2 == 2 * v.
Proof.
  apply (proj1 (estimate_carbon_nonneg_linear 14 "eu-west-1" ltac:(discriminate))).
Defined.

(** ** Selection of the allocation target *)

Lemma lt_num_spec (a b : Q) :
  if lt_num a b then a < b else b <= a.
Proof.
  unfold lt_num. destruct (a ?= b) eqn:E.
  - apply Qeq_alt in E. rewrite E. apply Qle_refl.
  - apply Qlt_alt. exact E.
  - apply Qlt_le_weak, Qgt_alt. exact E.
Qed.

Lemma lt_float_num (a b : Q) : lt_float (Num a) (Num b) = true <-> a < b.
Proof.
  simpl. pose proof (lt_num_spec a b) as H. destruct (lt_num a b); split; intros H'.
  - exact H.
  - reflexivity.
  - discriminate.
  - exfalso. apply (Qlt_not_le _ _ H'). exact H.
Qed.

Lemma le_float_num (a b : Q) : le_float (Num a) (Num b) = true <-> a <= b.
Proof. simpl. apply Qle_bool_iff. Qed.

(** A comparison that holds has a number on each side. *)
Lemma le_float_true_inv (a b : npfloat) :
  le_float a b = true -> exists x y, a = Num x /\ b = Num y /\ x <= y.
Proof.
  destruct a as [x |], b as [y |]; simpl; try discriminate.
  intros H. exists x, y. repeat split. apply Qle_bool_iff. exact H.
Qed.

Section FirstMinimum.

Context {A : Type} (key : A -> npfloat).

Lemma first_min_at_singleton (x : A) :
  key x <> NaN -> first_min_at key [x] 0 x.
Proof.
  intros Hx. split; [reflexivity |]. split.
  - intros y Hy. apply list_elem_of_singleton in Hy. subst.
    destruct (key x) as [q |]; [| congruence]. apply le_float_num, Qle_refl.
  - intros j y Hj. inversion Hj.
Qed.

(** One step of the scan keeps the invariant, when the item met is a
    number. *)
Lemma first_min_at_snoc (pre : list A) (i : nat) (best x : A) :
  key x <> NaN ->
  first_min_at key pre i best ->
  exists i', first_min_at key (pre ++ [x]) i'
               (if lt_float (key x) (key best) then x else best).
Proof.
  intros Hx (Hi & Hall & Hbefore).
  destruct (key x) as [qx |] eqn:Ekx; [clear Hx | congruence].
  assert (Hbest : best ∈ pre) by (eapply list_elem_of_lookup_2; exact Hi).
  destruct (le_float_true_inv _ _ (Hall best Hbest)) as (qb & qb' & Ekb & _ & _).
  rewrite Ekb. pose proof (lt_num_spec qx qb) as Hcmp. simpl.
  destruct (lt_num qx qb).
  - exists (length pre). split; [| split].
    + rewrite lookup_app_r by reflexivity.
      replace (length pre - length pre)%nat with 0%nat by lia. reflexivity.
    + intros y Hy. rewrite Ekx. apply elem_of_app in Hy as [Hy | Hy].
      * specialize (Hall y Hy). rewrite Ekb in Hall.
        destruct (le_float_true_inv _ _ Hall) as (q1 & qy & E1 & Ey & Hle).
        inversion E1; subst q1. rewrite Ey. apply le_float_num.
        apply Qlt_le_weak. eapply Qlt_le_trans; [exact Hcmp | exact Hle].
      * apply list_elem_of_singleton in Hy. subst y. rewrite Ekx.
        apply le_float_num, Qle_refl.
    + intros j y Hj Hy. rewrite lookup_app_l in Hy by exact Hj.
      rewrite Ekx.
      assert (Hin : y ∈ pre) by (eapply list_elem_of_lookup_2; exact Hy).
      specialize (Hall y Hin). rewrite Ekb in Hall.
      destruct (le_float_true_inv _ _ Hall) as (q1 & qy & E1 & Ey & Hle).
      inversion E1; subst q1. rewrite Ey. apply lt_float_num.
      eapply Qlt_le_trans; [exact Hcmp | exact Hle].
  - exists i. pose proof (lookup_lt_Some _ _ _ Hi) as Hlen.
    split; [| split].
    + rewrite lookup_app_l by exact Hlen. exact Hi.
    + intros y Hy. apply elem_of_app in Hy as [Hy | Hy].
      * auto.
      * apply list_elem_of_singleton in Hy. subst y. rewrite Ekb, Ekx.
        apply le_float_num. exact Hcmp.
    + intros j y Hj Hy. rewrite lookup_app_l in Hy by lia.
      eauto.
Qed.

Lemma min_scan_first_min (rest pre : list A) (i : nat) (best : A) :
  Forall (λ x, key x <> NaN) rest ->
  first_min_at key pre i best ->
  exists i', first_min_at key (pre ++ rest) i' (min_scan key best rest).
Proof.
  intros Hnum. revert pre i best.
  induction Hnum as [| x rest Hx _ IH]; intros pre i best Hinv; simpl.
  - exists i. rewrite app_nil_r. exact Hinv.
  - destruct (first_min_at_snoc pre i best x Hx Hinv) as [i1 Hstep].
    destruct (IH _ _ _ Hstep) as [i' Hi'].
    exists i'. rewrite <- app_assoc in Hi'. exact Hi'.
Qed.

(** An item whose key is NaN, once current, is never replaced: no
    comparison with it holds. *)
Lemma min_scan_nan (rest : list A) (best : A) :
  key best = NaN -> min_scan key best rest = best.
Proof.
  intros Hnan. induction rest as [| x rest IH]; simpl; [reflexivity |].
  rewrite Hnan. destruct (key x); simpl; exact IH.
Qed.

(** The scan returns one of the items it was given. *)
Lemma min_scan_elem (rest : list A) (best : A) :
  min_scan key best rest ∈ best :: rest.
Proof.
  revert best. induction rest as [| x rest IH]; intros best; simpl.
  - apply list_elem_of_here.
  - specialize (IH (if lt_float (key x) (key best) then x else best)).
    apply elem_of_cons in IH as [-> | IH].
    + destruct (lt_float (key x) (key best)); repeat constructor.
    + do 2 apply list_elem_of_further. exact IH.
Qed.

End FirstMinimum.

Lemma select_best_run (first : instance_metric) (rest : list instance_metric) (w : world) :
  let best := min_scan energy_consumption first rest in
  select_best (first :: rest) w =
    (Return (Success (instance_id best) (energy_consumption best)),
     World (log w ++ [(INFO, "Allocating workload to instance " +:+ instance_id best)])).
Proof. reflexivity. Qed.

(** On candidates whose energy figures are all numbers the selection is
    the one of minimum energy that comes first. *)
Lemma select_best_first_minimum_of_numbers
    (instance_metrics : list instance_metric) (w : world) :
  instance_metrics <> [] ->
  Forall (λ m, energy_consumption m <> NaN) instance_metrics ->
  exists (best : instance_metric) (i : nat),
    select_best instance_metrics w =
      (Return (Success (instance_id best) (energy_consumption best)),
       World (log w ++
              [(INFO, "Allocating workload to instance " +:+ instance_id best)])) /\
    first_min_at energy_consumption instance_metrics i best.
Proof.
  intros Hne Hnum. destruct instance_metrics as [| first rest]; [congruence |].
  inversion Hnum as [| ? ? Hfirst Hrest]; subst.
  destruct (min_scan_first_min energy_consumption rest [first] 0 first Hrest
              (first_min_at_singleton _ first Hfirst)) as [i Hi].
  exists (min_scan energy_consumption first rest), i.
  split; [apply select_best_run | exact Hi].
Qed.

(** The scenario of the specification: among ("a",10.0), ("b",5.0),
    ("c",5.0) the selection is "b". *)
Lemma select_best_scenario :
  fst (select_best
         [InstanceMetric "a" (Num 10); InstanceMetric "b" (Num 5);
          InstanceMetric "c" (Num 5)]
         initial_world)
  = Return (Success "b" (Num 5)).
Proof. reflexivity. Qed.

(** C4: the claim fails on a candidate without samples.  Its energy figure
    is [np.mean] of no value, NaN; when such a candidate is listed first,
    every test [key(x) < NaN] of the scan is false and it is returned,
    whatever the other candidates consume.  For instance, of ("a", NaN)
    and ("b", 5.0) the selection is "a", although "b" has the least energy
    and 5.0 < NaN is false. *)
Theorem select_best_keeps_leading_nan :
  (forall (id : string) (rest : list instance_metric) (w : world),
      select_best (InstanceMetric id NaN :: rest) w
      = (Return (Success id NaN),
         World (log w ++ [(INFO, "Allocating workload to instance " +:+ id)]))) /\
  (forall float_mean, np_mean float_mean [] = NaN) /\
  fst (select_best [InstanceMetric "a" NaN; InstanceMetric "b" (Num 5)] initial_world)
  = Return (Success "a" NaN) /\
  lt_float (Num 5) NaN = false /\
  le_float NaN (Num 5) = false.
Proof.
  split; [| repeat split; reflexivity].
  intros id rest w. rewrite select_best_run.
  rewrite (min_scan_nan energy_consumption rest (InstanceMetric id NaN) eq_refl).
  reflexivity.
Qed.

(** What the caller of [allocate_workload] receives once the gathering
    phase has produced [instance_metrics]: the selection runs inside the
    method's [try] block, under its handler. *)
Lemma allocate_workload_run
    (describe_instances : M (list (list string)))
    (get_instance_energy_metrics : string -> M (option instance_metric))
    (workload : gmap string pyobj)
    (w w1 w2 : world) (instances : list (list string))
    (instance_metrics : list instance_metric) :
  describe_instances w = (Return instances, w1) ->
  gather get_instance_energy_metrics (concat instances) w1
    = (Return instance_metrics, w2) ->
  allocate_workload describe_instances get_instance_energy_metrics workload w
    = try_except (select_best instance_metrics) on_failure w2.
Proof.
  intros Hd Hg. unfold allocate_workload, try_except, mbind, M_bind.
  rewrite Hd, Hg. reflexivity.
Qed.

(** The success path seen by the caller: the candidate kept by the scan,
    and one information record in the log. *)
Lemma allocate_workload_success
    (describe_instances : M (list (list string)))
    (get_instance_energy_metrics : string -> M (option instance_metric))
    (workload : gmap string pyobj)
    (w w1 w2 : world) (instances : list (list string))
    (first : instance_metric) (rest : list instance_metric) :
  describe_instances w = (Return instances, w1) ->
  gather get_instance_energy_metrics (concat instances) w1
    = (Return (first :: rest), w2) ->
  let best := min_scan energy_consumption first rest in
  allocate_workload describe_instances get_instance_energy_metrics workload w
  = (Return (Success (instance_id best) (energy_consumption best)),
     World (log w2 ++
            [(INFO, "Allocating workload to instance " +:+ instance_id best)])).
Proof.
  intros Hd Hg best.
  rewrite (allocate_workload_run _ _ _ _ _ _ _ _ Hd Hg). reflexivity.
Qed.

(** A failure of the instance listing takes the same handler. *)
Lemma allocate_workload_listing_failure
    (describe_instances : M (list (list string)))
    (get_instance_energy_metrics : string -> M (option instance_metric))
    (workload : gmap string pyobj) (w w1 : world) (e : exn) :
  describe_instances w = (Raise e, w1) ->
  allocate_workload describe_instances get_instance_energy_metrics workload w
  = (Return (Error (str e)),
     World (log w1 ++ [(ERROR, "Failed to allocate workload: " +:+ str e)])).
Proof.
  intros Hd. unfold allocate_workload, try_except, mbind, M_bind.
  rewrite Hd. reflexivity.
Qed.

(** Whatever the collaborators do, the caller of [allocate_workload]
    never sees an exception. *)
Lemma allocate_workload_never_raises
    (describe_instances : M (list (list string)))
    (get_instance_energy_metrics : string -> M (option instance_metric))
    (workload : gmap string pyobj) (w : world) (e : exn) :
  ~ raises (allocate_workload describe_instances get_instance_energy_metrics workload) w e.
Proof.
  unfold raises, allocate_workload, try_except.
  match goal with
  | |- context [match ?body w with _ => _ end] =>
      destruct (body w) as [[r | e'] w']
  end; simpl; discriminate.
Qed.

(** C2, as stated, fails: with no running instance the candidate list is
    empty, and the caller of [allocate_workload] gets a normal return
    value, the dictionary with status "error"; nothing is raised to it. *)
Lemma empty_candidates_not_propagated :
  allocate_workload (mret []) (fun _ => mret None) ∅ initial_world
  = (Return (Error "No suitable instances found for workload allocation"),
     World [(ERROR, "Failed to allocate workload: No suitable instances found for workload allocation")]) /\
  ~ exists e,
      raises (allocate_workload (mret []) (fun _ => mret None) ∅) initial_world e.
Proof.
  split; [reflexivity |].
  intros [e He]. unfold raises in He. vm_compute in He. discriminate.
Qed.

(** C2, amended: on an empty candidate list the selection step raises
    [Exception("No suitable instances found for workload allocation")]
    without touching the world; [allocate_workload] catches it in its own
    handler, logs one error record and returns to its caller the
    dictionary with status "error" and that text as message.  The world
    it leaves is the one after the single gathering pass plus that one
    record: nothing is run again. *)
Theorem empty_candidates_reported
    (describe_instances : M (list (list string)))
    (get_instance_energy_metrics : string -> M (option instance_metric))
    (workload : gmap string pyobj)
    (w w1 w2 : world) (instances : list (list string)) :
  describe_instances w = (Return instances, w1) ->
  gather get_instance_energy_metrics (concat instances) w1 = (Return [], w2) ->
  let msg := "No suitable instances found for workload allocation" in
  select_best [] w2 = (Raise (Exception msg), w2) /\
  allocate_workload describe_instances get_instance_energy_metrics workload w
    = (Return (Error msg),
       World (log w2 ++ [(ERROR, "Failed to allocate workload: " +:+ msg)])) /\
  status (Error msg) = "error".
Proof.
  intros Hd Hg msg. split; [reflexivity |]. split; [| reflexivity].
  rewrite (allocate_workload_run _ _ _ _ _ _ _ _ Hd Hg). reflexivity.
Qed.

Lemma empty_candidates_reported_witness :
  gather (fun _ => mret None) (concat [["i-0a"]]) initial_world
  = (Return [], initial_world) /\
  allocate_workload (mret [["i-0a"]]) (fun _ => mret None) ∅ initial_world
  = (Return (Error "No suitable instances found for workload allocation"),
     World [(ERROR, "Failed to allocate workload: No suitable instances found for workload allocation")]).
Proof.
  split; [reflexivity |].
  destruct (empty_candidates_reported (mret [["i-0a"]]) (fun _ => mret None) ∅
              initial_world initial_world initial_world [["i-0a"]])
    as (_ & Hcall & _); [reflexivity | reflexivity | exact Hcall].
Defined.

(** ** Purity of the estimates *)

(** The selection step is the one place that raises, and it does so
    exactly on the empty candidate list. *)
Lemma select_best_raises_iff (instance_metrics : list instance_metric) (w : world) :
  (exists e, raises (select_best instance_metrics) w e) <-> instance_metrics = [].
Proof.
  split.
  - intros [e He]. destruct instance_metrics as [| first rest]; [reflexivity |].
    unfold raises in He. rewrite select_best_run in He. discriminate.
  - intros ->. eexists. reflexivity.
Qed.

(** C9: the energy estimate and both variants of the carbon estimate are
    effect-free functions of their arguments: started in any two worlds
    with the same arguments they return the same value, they never raise
    and they hand the world back unchanged (nothing is logged, nothing is
    written).  Among the three operations only the selection raises, and
    only on the empty candidate list. *)
Theorem estimates_pure_selection_raises_on_empty_only :
  (forall (cpu_utilization : Q) (instance_type : string) (w1 w2 : world),
      exists v,
        RealTimeDataCollector.estimate_energy_consumption cpu_utilization instance_type w1
          = (Return v, w1) /\
        RealTimeDataCollector.estimate_energy_consumption cpu_utilization instance_type w2
          = (Return v, w2)) /\
  (forall (energy : Q) (region : string) (w1 w2 : world),
      exists v,
        RealTimeDataCollector.estimate_carbon_footprint energy region w1 = (Return v, w1) /\
        RealTimeDataCollector.estimate_carbon_footprint energy region w2 = (Return v, w2) /\
        EnergyMonitor.estimate_carbon_footprint energy region w1 = (Return v, w1) /\
        EnergyMonitor.estimate_carbon_footprint energy region w2 = (Return v, w2)) /\
  (forall (instance_metrics : list instance_metric) (w : world) (e : exn),
      raises (select_best instance_metrics) w e <->
      instance_metrics = [] /\
      e = Exception "No suitable instances found for workload allocation").
Proof.
  split; [| split].
  - intros cpu ty w1 w2. eexists.
    split; apply estimate_energy_consumption_yields.
  - intros energy region w1 w2. eexists.
    split; [apply collector_carbon_yields |].
    split; [apply collector_carbon_yields |].
    split; apply monitor_carbon_yields.
  - intros l w e. split.
    + intros He.
      assert (Hl : l = []) by (apply (select_best_raises_iff l w); eauto).
      subst l. split; [reflexivity |].
      unfold raises in He. simpl in He. congruence.
    + intros [-> ->]. reflexivity.
Qed.

(** ** The monitoring path *)

Lemma calculate_energy_consumption_nonempty
    (metrics : gmap string (list EnergyMonitor.datapoint))
    (series : list EnergyMonitor.datapoint) :
  metrics !! "CPUUtilization" = Some series ->
  series <> [] ->
  yields (EnergyMonitor.calculate_energy_consumption metrics)
         (100 + (200 - 100) *
                (EnergyMonitor.mean (EnergyMonitor.value <$> series) / 100)).
Proof.
  intros Hm Hne w.
  unfold EnergyMonitor.calculate_energy_consumption, try_except, getitem.
  rewrite Hm. destruct series; [congruence | reflexivity].
Qed.

Lemma calculate_energy_consumption_empty
    (metrics : gmap string (list EnergyMonitor.datapoint)) :
  metrics !! "CPUUtilization" = Some [] ->
  yields (EnergyMonitor.calculate_energy_consumption metrics) 0.
Proof.
  intros Hm w.
  unfold EnergyMonitor.calculate_energy_consumption, try_except, getitem.
  rewrite Hm. reflexivity.
Qed.

Lemma sum_nonneg (xs : list Q) :
  Forall (fun x => 0 <= x) xs -> 0 <= EnergyMonitor.sum xs.
Proof.
  induction 1 as [| x xs Hx _ IH]; simpl.
  - apply Qle_refl.
  - change 0 with (0 + 0). apply Qplus_le_compat; assumption.
Qed.

Lemma mean_nonneg (xs : list Q) :
  Forall (fun x => 0 <= x) xs -> 0 <= EnergyMonitor.mean xs.
Proof.
  intros H. unfold EnergyMonitor.mean.
  apply Qmult_le_0_compat; [apply sum_nonneg; exact H |].
  apply Qinv_le_0_compat.
  change 0 with (inject_Z 0). rewrite <- Zle_Qle. lia.
Qed.

(** C10: the monitor's energy figure takes no instance type.  On a
    non-empty CPUUtilization series it is
    [100 + (200 - 100) * (mean_cpu / 100)]; on an empty series it is 0 and
    not the base power.  It therefore disagrees with the collector's
    estimate for every instance type whose base power is not 100: already
    at 0% the monitor says 100 watts and the collector says the base
    power, and for the types of the table (and the fallback) the monitor's
    figure is strictly larger at every non-negative utilisation, for
    example 150 against 14 watts for "t3.medium" at 50%. *)
Theorem monitor_energy_ignores_instance_type :
  (forall (metrics : gmap string (list EnergyMonitor.datapoint))
          (series : list EnergyMonitor.datapoint),
      metrics !! "CPUUtilization" = Some series ->
      series <> [] ->
      yields (EnergyMonitor.calculate_energy_consumption metrics)
             (100 + (200 - 100) *
                    (EnergyMonitor.mean (EnergyMonitor.value <$> series) / 100))) /\
  (forall (metrics : gmap string (list EnergyMonitor.datapoint)),
      metrics !! "CPUUtilization" = Some [] ->
      yields (EnergyMonitor.calculate_energy_consumption metrics) 0) /\
  (forall (instance_type : string) (t : Z),
      let base_power :=
        default 5 (RealTimeDataCollector.instance_base_power !! instance_type) in
      let series := [EnergyMonitor.Datapoint t 0] in
      ~ base_power == 100 ->
      exists vm vc,
        yields (EnergyMonitor.calculate_energy_consumption
                  {[ "CPUUtilization" := series ]}) vm /\
        yields (RealTimeDataCollector.estimate_energy_consumption
                  (EnergyMonitor.mean (EnergyMonitor.value <$> series))
                  instance_type) vc /\
        vm == 100 /\ vc == base_power /\ ~ vm == vc) /\
  (forall (instance_type : string)
          (metrics : gmap string (list EnergyMonitor.datapoint))
          (series : list EnergyMonitor.datapoint),
      metrics !! "CPUUtilization" = Some series ->
      series <> [] ->
      Forall (fun d => 0 <= EnergyMonitor.value d) series ->
      exists vm vc,
        yields (EnergyMonitor.calculate_energy_consumption metrics) vm /\
        yields (RealTimeDataCollector.estimate_energy_consumption
                  (EnergyMonitor.mean (EnergyMonitor.value <$> series))
                  instance_type) vc /\
        vc < vm) /\
  (exists vm vc,
      yields (EnergyMonitor.calculate_energy_consumption
                {[ "CPUUtilization" :=
                     [EnergyMonitor.Datapoint 0 40; EnergyMonitor.Datapoint 300 60] ]}) vm /\
      yields (RealTimeDataCollector.estimate_energy_consumption 50 "t3.medium") vc /\
      vm == 150 /\ vc == 14).
Proof.
  split; [exact calculate_energy_consumption_nonempty |].
  split; [exact calculate_energy_consumption_empty |].
  split; [| split].
  - intros ty t base_power series Hbase.
    do 2 eexists.
    split; [apply (calculate_energy_consumption_nonempty _ series);
            [apply lookup_singleton_eq | discriminate] |].
    split; [apply estimate_energy_consumption_yields |].
    fold base_power.
    assert (Hmean : EnergyMonitor.mean (EnergyMonitor.value <$> series) == 0)
      by reflexivity.
    rewrite Hmean.
    assert (Hvm : 100 + (200 - 100) * (0 / 100) == 100) by reflexivity.
    assert (Hvc : base_power + (base_power * 2.5 - base_power) * (0 / 100)
                  == base_power) by field.
    rewrite Hvm, Hvc.
    split; [reflexivity |]. split; [reflexivity |].
    intros Heq. apply Hbase. symmetry. exact Heq.
  - intros ty metrics series Hm Hne Hpos.
    do 2 eexists.
    split; [apply (calculate_energy_consumption_nonempty _ series Hm Hne) |].
    split; [apply estimate_energy_consumption_yields |].
    assert (Hc : 0 <= EnergyMonitor.mean (EnergyMonitor.value <$> series)).
    { apply mean_nonneg. rewrite Forall_fmap. exact Hpos. }
    destruct (base_power_range ty) as [Hlo Hhi].
    set (b := default 5 _) in *.
    set (c := EnergyMonitor.mean _) in *.
    rewrite !percent. nra.
  - do 2 eexists.
    split; [apply (calculate_energy_consumption_nonempty _
                     [EnergyMonitor.Datapoint 0 40; EnergyMonitor.Datapoint 300 60]);
            [apply lookup_singleton_eq | discriminate] |].
    split; [apply estimate_energy_consumption_yields |].
    split; reflexivity.
Qed.

Lemma monitor_energy_ignores_instance_type_witness :
  exists vm vc,
    yields (EnergyMonitor.calculate_energy_consumption
              {[ "CPUUtilization" := [EnergyMonitor.Datapoint 0 0] ]}) vm /\
    yields (RealTimeDataCollector.estimate_energy_consumption
              (EnergyMonitor.mean
                 (EnergyMonitor.value <$> [EnergyMonitor.Datapoint 0 0]))
              "t3.medium") vc /\
    vm == 100 /\ vc == 8 /\ ~ vm == vc.
Proof.
  apply (proj1 (proj2 (proj2 monitor_energy_ignores_instance_type)) "t3.medium" 0%Z).
  discriminate.
Defined.

(** * The surrounding code: collection, monitoring, scaling and the API *)

(** ** Running sequenced computations *)

Lemma bind_run_return {A B} (m : M A) (k : A -> M B) (w w' : world) (a : A) :
  m w = (Return a, w') -> (m ≫= k) w = k a w'.
Proof. intros H. unfold mbind, M_bind. rewrite H. reflexivity. Qed.

Lemma bind_run_raise {A B} (m : M A) (k : A -> M B) (w w' : world) (e : exn) :
  m w = (Raise e, w') -> (m ≫= k) w = (Raise e, w').
Proof. intros H. unfold mbind, M_bind. rewrite H. reflexivity. Qed.

Lemma bind_yields {A B} (m : M A) (k : A -> M B) (v : A) (w : world) :
  yields m v -> (m ≫= k) w = k v w.
Proof. intros H. apply bind_run_return, H. Qed.

(** A sequence that returns has returned from its first part. *)
Lemma bind_return_inv {A B} (m : M A) (k : A -> M B) (w w2 : world) (b : B) :
  (m ≫= k) w = (Return b, w2) ->
  exists a w1, m w = (Return a, w1) /\ k a w1 = (Return b, w2).
Proof.
  unfold mbind, M_bind. destruct (m w) as [[a | e] w1]; intros H.
  - exists a, w1. split; [reflexivity | exact H].
  - discriminate.
Qed.

(** A handler that cannot raise makes the whole block return. *)
Lemma try_except_returns {A} (body : M A) (handler : exn -> M A) (w : world) :
  (forall e w1, exists a w2, handler e w1 = (Return a, w2)) ->
  exists a w', try_except body handler w = (Return a, w').
Proof.
  intros Hh. unfold try_except. destruct (body w) as [[a | e] w1].
  - exists a, w1. reflexivity.
  - apply Hh.
Qed.

Lemma try_except_return_inv {A} (body : M A) (handler : exn -> M A)
    (w w' : world) (a : A) :
  try_except body handler w = (Return a, w') ->
  body w = (Return a, w') \/
  exists e w1, body w = (Raise e, w1) /\ handler e w1 = (Return a, w').
Proof.
  unfold try_except. destruct (body w) as [[a1 | e] w1]; intros H.
  - left. exact H.
  - right. exists e, w1. split; [reflexivity | exact H].
Qed.

(** Case distinction on the run of the computation scrutinised in the
    goal: it returned [r], or raised [e], leaving the world [w1]. *)
Ltac case_run w r e w1 Hrun :=
  match goal with
  | |- context [match ?body w with _ => _ end] =>
      destruct (body w) as [[r | e] w1] eqn:Hrun
  end.

(** Enumerates the members of an explicit list of names. *)
Ltac name_cases H :=
  repeat (apply elem_of_cons in H; destruct H as [-> | H]);
  [.. | inversion H].

(** ** The collector's metrics dictionary *)

Section CollectorMetrics.

Context (get_metric_statistics : string -> string -> Z -> Z -> M (list Aws.cw_datapoint)).

(** The loop adds the names it visits to the keys and removes none. *)
Lemma read_metrics_dom (names : list string) (instance_id : string)
    (start_time end_time : Z) (metrics metrics' : gmap string Q) (w w' : world) :
  RealTimeDataCollector.read_metrics get_metric_statistics
    names instance_id start_time end_time metrics w = (Return metrics', w') ->
  dom metrics' = dom metrics ∪ list_to_set names.
Proof.
  revert metrics w. induction names as [| name names IH]; intros metrics w H; simpl in H.
  - inversion H; subst. simpl. rewrite union_empty_r_L. reflexivity.
  - apply bind_return_inv in H as (datapoints & w1 & _ & H).
    apply IH in H. rewrite H, dom_insert_L. simpl.
    rewrite (union_comm_L {[name]} (dom metrics)), union_assoc_L. reflexivity.
Qed.

(** X1.  Whatever CloudWatch does, the collector's [get_instance_metrics]
    returns: either a dictionary whose keys are exactly the six metric
    names, or [None] after logging the failure as its last record. *)
Theorem collector_get_instance_metrics_outcome
    (instance_id : string) (start_time end_time : Z) (w : world) :
  exists r w',
    RealTimeDataCollector.get_instance_metrics get_metric_statistics
      instance_id start_time end_time w = (Return r, w') /\
    match r with
    | Some metrics =>
        dom metrics = list_to_set RealTimeDataCollector.metric_names /\
        size metrics = 6%nat
    | None =>
        exists e w1,
          w' = World (log w1 ++
                 [(ERROR, "Failed to get metrics for instance " +:+ instance_id
                          +:+ ": " +:+ str e)])
    end.
Proof.
  unfold RealTimeDataCollector.get_instance_metrics, try_except.
  case_run w r e w1 Hbody.
  - exists r, w1. split; [reflexivity |].
    apply bind_return_inv in Hbody as (metrics & w2 & Hread & Hret).
    inversion Hret; subst.
    apply read_metrics_dom in Hread.
    rewrite dom_empty_L, union_empty_l_L in Hread.
    split; [exact Hread |].
    rewrite <- size_dom, Hread. reflexivity.
  - exists None, (World (log w1 ++
                    [(ERROR, "Failed to get metrics for instance " +:+ instance_id
                             +:+ ": " +:+ str e)])).
    split; [reflexivity |]. exists e, w1. reflexivity.
Qed.

(** With a service that answers, the loop stores one entry per name. *)
Lemma read_metrics_answering (answers : string -> list Aws.cw_datapoint)
    (instance_id : string) (start_time end_time : Z) :
  (forall name,
      yields (get_metric_statistics name instance_id start_time end_time)
             (answers name)) ->
  forall (names : list string) (metrics : gmap string Q),
    yields (RealTimeDataCollector.read_metrics get_metric_statistics
              names instance_id start_time end_time metrics)
           (foldl (λ acc name,
                     <[name := RealTimeDataCollector.first_average (answers name)]> acc)
                  metrics names).
Proof.
  intros Hanswers names. induction names as [| name names IH]; intros metrics w; simpl.
  - reflexivity.
  - rewrite (bind_yields _ _ _ _ (Hanswers name)). apply IH.
Qed.

(** The dictionary built from the answers of the service. *)
Lemma collector_metrics_answering
    (answers : string -> list Aws.cw_datapoint)
    (instance_id : string) (start_time end_time : Z) :
  (forall name,
      yields (get_metric_statistics name instance_id start_time end_time)
             (answers name)) ->
  exists metrics,
    yields (RealTimeDataCollector.get_instance_metrics get_metric_statistics
              instance_id start_time end_time)
           (Some metrics) /\
    size metrics = 6%nat /\
    (forall name,
        name ∈ RealTimeDataCollector.metric_names ->
        metrics !! name = Some (RealTimeDataCollector.first_average (answers name))).
Proof.
  intros Hanswers.
  pose proof (read_metrics_answering answers instance_id start_time end_time Hanswers
                RealTimeDataCollector.metric_names ∅) as Hread.
  eexists. split; [| split].
  - intros w. unfold RealTimeDataCollector.get_instance_metrics, try_except.
    rewrite (bind_yields _ _ _ _ Hread). reflexivity.
  - reflexivity.
  - intros name Hname. name_cases Hname; reflexivity.
Qed.

(** X2.  When every query is answered, the dictionary holds for each of
    the six metrics the average of the first datapoint of its answer, and
    0 for a metric without datapoints; nothing is logged. *)
Theorem collector_get_instance_metrics_values
    (answers : string -> list Aws.cw_datapoint)
    (instance_id : string) (start_time end_time : Z) :
  (forall name,
      yields (get_metric_statistics name instance_id start_time end_time)
             (answers name)) ->
  exists metrics,
    yields (RealTimeDataCollector.get_instance_metrics get_metric_statistics
              instance_id start_time end_time)
           (Some metrics) /\
    (forall name,
        name ∈ RealTimeDataCollector.metric_names ->
        metrics !! name = Some (RealTimeDataCollector.first_average (answers name))) /\
    (forall name,
        name ∈ RealTimeDataCollector.metric_names ->
        answers name = [] -> metrics !! name = Some 0).
Proof.
  intros Hanswers.
  destruct (collector_metrics_answering answers instance_id start_time end_time Hanswers)
    as (metrics & Hrun & _ & Hvalues).
  exists metrics. split; [exact Hrun |]. split; [exact Hvalues |].
  intros name Hname Hnone. rewrite (Hvalues name Hname), Hnone. reflexivity.
Qed.

End CollectorMetrics.

Lemma collector_get_instance_metrics_values_witness :
  exists metrics,
    yields (RealTimeDataCollector.get_instance_metrics
              (λ name _ _ _,
                 mret (if String.eqb name "CPUUtilization"
                       then [Aws.CwDatapoint 0 37.5; Aws.CwDatapoint 300 90]
                       else []))
              "i-0a" 0 300)
           (Some metrics) /\
    metrics !! "CPUUtilization" = Some 37.5 /\
    metrics !! "NetworkIn" = Some 0.
Proof.
  destruct (collector_get_instance_metrics_values
              (λ name _ _ _,
                 mret (if String.eqb name "CPUUtilization"
                       then [Aws.CwDatapoint 0 37.5; Aws.CwDatapoint 300 90]
                       else []))
              (λ name, if String.eqb name "CPUUtilization"
                       then [Aws.CwDatapoint 0 37.5; Aws.CwDatapoint 300 90]
                       else [])
              "i-0a" 0%Z 300%Z)
    as (metrics & Hrun & Hvalues & _).
  - intros name w. reflexivity.
  - exists metrics. split; [exact Hrun |]. split.
    + rewrite (Hvalues "CPUUtilization") by (repeat constructor). reflexivity.
    + rewrite (Hvalues "NetworkIn") by (repeat constructor). reflexivity.
Defined.

(** ** The workload demand written to the workload file *)

Lemma py_int_floor (x : Q) : 0 <= x -> py_int x = Qfloor x.
Proof.
  destruct x as [n d]. unfold Qle, py_int, Qfloor. simpl. intros Hn.
  apply Z.quot_div_nonneg; lia.
Qed.

Lemma py_int_nonpos (x : Q) : x <= 0 -> (py_int x <= 0)%Z.
Proof.
  destruct x as [n d]. unfold Qle, py_int. simpl. intros Hn.
  assert (Hq : (0 <= (- n) ÷ Z.pos d)%Z) by (apply Z.quot_pos; lia).
  rewrite Z.quot_opp_l in Hq by lia. lia.
Qed.

Lemma Qfloor_lower (x : Q) (k : Z) : inject_Z k <= x -> (k <= Qfloor x)%Z.
Proof.
  intros H.
  assert (Hlt : inject_Z k < inject_Z (Qfloor x + 1)).
  { eapply Qle_lt_trans; [exact H | apply Qlt_floor]. }
  rewrite <- Zlt_Qlt in Hlt. lia.
Qed.

Lemma Qfloor_upper (x : Q) (k : Z) : x < inject_Z k -> (Qfloor x < k)%Z.
Proof.
  intros H. rewrite Zlt_Qlt.
  eapply Qle_lt_trans; [apply Qfloor_le | exact H].
Qed.

(** X3.  The demand figure [max(1, int(cpu / 20))] is at least 1 for every
    utilisation; it is exactly 1 below 40% (negative readings included);
    from 20% on it is the number of whole twenties in the utilisation; and
    for a utilisation within [0,100] it lies between 1 and 5. *)
Theorem workload_demand_range (cpu_utilization : Q) :
  let d := RealTimeDataCollector.workload_demand cpu_utilization in
  (1 <= d)%Z /\
  (cpu_utilization < 40 -> d = 1%Z) /\
  (20 <= cpu_utilization ->
   inject_Z d * 20 <= cpu_utilization /\ cpu_utilization < (inject_Z d + 1) * 20) /\
  (0 <= cpu_utilization -> cpu_utilization <= 100 -> (d <= 5)%Z).
Proof.
  intros d. subst d. unfold RealTimeDataCollector.workload_demand.
  set (x := cpu_utilization / 20).
  assert (Hx : cpu_utilization == x * 20) by (subst x; field).
  split; [apply Z.le_max_l |]. split; [| split].
  - intros Hlt. destruct (Qlt_le_dec x 0) as [Hneg | Hpos].
    + pose proof (py_int_nonpos x (Qlt_le_weak _ _ Hneg)). lia.
    + rewrite (py_int_floor x Hpos).
      assert (Hf : (Qfloor x < 2)%Z).
      { apply Qfloor_upper. change (inject_Z 2) with 2. lra. }
      lia.
  - intros Hge.
    assert (Hpos : 0 <= x) by lra.
    rewrite (py_int_floor x Hpos).
    assert (Hf : (1 <= Qfloor x)%Z).
    { apply Qfloor_lower. change (inject_Z 1) with 1. lra. }
    rewrite Z.max_r by exact Hf.
    pose proof (Qfloor_le x) as Hlo. pose proof (Qlt_floor x) as Hhi.
    rewrite inject_Z_plus in Hhi. change (inject_Z 1) with 1 in Hhi.
    split; nra.
  - intros H0 H100.
    assert (Hpos : 0 <= x) by lra.
    rewrite (py_int_floor x Hpos).
    assert (Hf : (Qfloor x < 6)%Z).
    { apply Qfloor_upper. change (inject_Z 6) with 6. lra. }
    lia.
Qed.

Lemma workload_demand_range_witness :
  RealTimeDataCollector.workload_demand 39.9 = 1%Z /\
  RealTimeDataCollector.workload_demand 100 = 5%Z /\
  inject_Z (RealTimeDataCollector.workload_demand 75) * 20 <= 75.
Proof.
  split; [| split].
  - apply (proj1 (proj2 (workload_demand_range 39.9))). reflexivity.
  - reflexivity.
  - apply (proj1 (proj2 (proj2 (workload_demand_range 75)))). discriminate.
Defined.

(** ** The rows of one collection cycle *)

Section CollectorRows.

Context (get_metric_statistics : string -> string -> Z -> Z -> M (list Aws.cw_datapoint)).

(** What holds of the two records written for one instance. *)
Lemma instance_rows_inv (end_time start_time : Z) (instance : Aws.instance)
    (w w' : world)
    (wr : RealTimeDataCollector.workload_row)
    (er : RealTimeDataCollector.energy_row) :
  RealTimeDataCollector.instance_rows get_metric_statistics
    end_time start_time instance w = (Return (Some (wr, er)), w') ->
  RealTimeDataCollector.e_instance_id er = Aws.InstanceId instance /\
  RealTimeDataCollector.e_instance_type er = Aws.InstanceType instance /\
  RealTimeDataCollector.e_region er = Aws.region_of (Aws.AvailabilityZone instance) /\
  RealTimeDataCollector.w_timestamp wr = end_time /\
  RealTimeDataCollector.e_timestamp er = end_time /\
  RealTimeDataCollector.w_cpu_utilization wr = RealTimeDataCollector.e_cpu_utilization er /\
  RealTimeDataCollector.w_memory_usage wr = RealTimeDataCollector.e_memory_usage er /\
  RealTimeDataCollector.w_workload_demand wr
    = RealTimeDataCollector.workload_demand (RealTimeDataCollector.e_cpu_utilization er) /\
  (let base :=
     default 5 (RealTimeDataCollector.instance_base_power
                  !! RealTimeDataCollector.e_instance_type er) in
   RealTimeDataCollector.e_energy_consumption er
   == base + (base * 2.5 - base) * (RealTimeDataCollector.e_cpu_utilization er / 100)) /\
  RealTimeDataCollector.e_carbon_footprint er
  == RealTimeDataCollector.e_energy_consumption er / 1000
     * default 500 (RealTimeDataCollector.carbon_factors
                      !! RealTimeDataCollector.e_region er).
Proof.
  unfold RealTimeDataCollector.instance_rows. intros H.
  apply bind_return_inv in H as ([metrics |] & w1 & _ & H); [| discriminate].
  destruct (decide (size metrics = 0%nat)); [discriminate |].
  apply bind_return_inv in H as (cpu & w2 & _ & H).
  apply bind_return_inv in H as (energy & w3 & Henergy & H).
  apply bind_return_inv in H as (carbon & w4 & Hcarbon & H).
  apply bind_return_inv in H as (network_in & w5 & _ & H).
  apply bind_return_inv in H as (network_out & w6 & _ & H).
  rewrite estimate_energy_consumption_yields in Henergy.
  rewrite collector_carbon_yields in Hcarbon.
  inversion H; inversion Henergy; inversion Hcarbon; subst; simpl.
  repeat split; reflexivity.
Qed.

(** X4.  Whatever the cloud services do, the two tables produced by one
    cycle stay aligned: they have the same number of rows, at most one per
    listed instance; rows at the same position carry the same utilisation,
    memory figure and the cycle's timestamp; every demand is the one
    computed from the row's utilisation; and every energy row carries the
    energy estimated for its type and utilisation and the carbon figure
    estimated from that energy and its region. *)
Theorem collect_rows_consistent (end_time start_time : Z)
    (instances : list Aws.instance) (w w' : world)
    (workload_data : list RealTimeDataCollector.workload_row)
    (energy_metrics : list RealTimeDataCollector.energy_row) :
  RealTimeDataCollector.collect_rows get_metric_statistics
    end_time start_time instances w = (Return (workload_data, energy_metrics), w') ->
  length workload_data = length energy_metrics /\
  (length energy_metrics <= length instances)%nat /\
  Forall2 (λ wr er,
             RealTimeDataCollector.w_timestamp wr = end_time /\
             RealTimeDataCollector.e_timestamp er = end_time /\
             RealTimeDataCollector.w_cpu_utilization wr
               = RealTimeDataCollector.e_cpu_utilization er /\
             RealTimeDataCollector.w_memory_usage wr
               = RealTimeDataCollector.e_memory_usage er /\
             RealTimeDataCollector.w_workload_demand wr
               = RealTimeDataCollector.workload_demand
                   (RealTimeDataCollector.e_cpu_utilization er))
          workload_data energy_metrics /\
  Forall (λ er,
            (let base :=
               default 5 (RealTimeDataCollector.instance_base_power
                            !! RealTimeDataCollector.e_instance_type er) in
             RealTimeDataCollector.e_energy_consumption er
             == base + (base * 2.5 - base)
                       * (RealTimeDataCollector.e_cpu_utilization er / 100)) /\
            RealTimeDataCollector.e_carbon_footprint er
            == RealTimeDataCollector.e_energy_consumption er / 1000
               * default 500 (RealTimeDataCollector.carbon_factors
                                !! RealTimeDataCollector.e_region er))
         energy_metrics.
Proof.
  revert w w' workload_data energy_metrics.
  induction instances as [| instance instances IH];
    intros w w' workload_data energy_metrics H; simpl in H.
  - inversion H; subst. repeat split; constructor.
  - apply bind_return_inv in H as (rows & w1 & Hrows & H).
    apply bind_return_inv in H as ([ws es] & w2 & Hlater & H).
    apply IH in Hlater as (Hlen & Hle & Haligned & Henergy).
    destruct rows as [[wr er] |]; inversion H; subst; simpl in *.
    + apply instance_rows_inv in Hrows
        as (_ & _ & _ & Hwt & Het & Hcpu & Hmem & Hdemand & Hen & Hcarbon).
      split; [lia |]. split; [lia |].
      split; constructor; auto.
    + split; [exact Hlen |]. split; [lia |]. split; assumption.
Qed.

(** With a service that answers, every instance gets its pair of rows. *)
Lemma instance_rows_answering
    (answers : string -> list Aws.cw_datapoint)
    (end_time start_time : Z) (instance : Aws.instance) :
  (forall name,
      yields (get_metric_statistics name (Aws.InstanceId instance) start_time end_time)
             (answers name)) ->
  exists wr er,
    yields (RealTimeDataCollector.instance_rows get_metric_statistics
              end_time start_time instance)
           (Some (wr, er)) /\
    RealTimeDataCollector.e_cpu_utilization er
    = RealTimeDataCollector.first_average (answers "CPUUtilization") /\
    RealTimeDataCollector.e_memory_usage er
    = RealTimeDataCollector.first_average (answers "MemoryUtilization") /\
    RealTimeDataCollector.w_network_in wr
    = RealTimeDataCollector.first_average (answers "NetworkIn") /\
    RealTimeDataCollector.w_network_out wr
    = RealTimeDataCollector.first_average (answers "NetworkOut").
Proof.
  intros Hanswers.
  destruct (collector_metrics_answering get_metric_statistics answers
              _ _ _ Hanswers) as (metrics & Hrun & Hsize & Hvalues).
  assert (Hin : forall name, name ∈ ["CPUUtilization"; "MemoryUtilization";
                                     "NetworkIn"; "NetworkOut"] ->
                             name ∈ RealTimeDataCollector.metric_names).
  { intros name Hname. name_cases Hname; repeat constructor. }
  pose proof (Hvalues "CPUUtilization" ltac:(apply Hin; repeat constructor)) as Hcpu.
  pose proof (Hvalues "MemoryUtilization" ltac:(apply Hin; repeat constructor)) as Hmem.
  pose proof (Hvalues "NetworkIn" ltac:(apply Hin; repeat constructor)) as Hnin.
  pose proof (Hvalues "NetworkOut" ltac:(apply Hin; repeat constructor)) as Hnout.
  do 2 eexists. split.
  - intros w. unfold RealTimeDataCollector.instance_rows.
    rewrite (bind_yields _ _ _ _ Hrun).
    destruct (decide (size metrics = 0%nat)) as [Hz | _]; [rewrite Hsize in Hz; discriminate |].
    unfold getitem. rewrite Hcpu, Hmem, Hnin, Hnout. reflexivity.
  - simpl. repeat split; reflexivity.
Qed.

(** X5.  When every query is answered, the cycle writes one energy row and
    one workload row per listed instance, in the order of the listing, and
    the utilisation of a row is the average of the first CPU datapoint
    CloudWatch gave for that instance (0 without datapoints). *)
Theorem collect_rows_answering
    (answers : string -> string -> list Aws.cw_datapoint)
    (end_time start_time : Z) (instances : list Aws.instance) :
  (forall name instance_id,
      yields (get_metric_statistics name instance_id start_time end_time)
             (answers name instance_id)) ->
  exists workload_data energy_metrics,
    yields (RealTimeDataCollector.collect_rows get_metric_statistics
              end_time start_time instances)
           (workload_data, energy_metrics) /\
    length workload_data = length instances /\
    RealTimeDataCollector.e_instance_id <$> energy_metrics
    = Aws.InstanceId <$> instances /\
    RealTimeDataCollector.e_cpu_utilization <$> energy_metrics
    = (λ i, RealTimeDataCollector.first_average
              (answers "CPUUtilization" (Aws.InstanceId i))) <$> instances.
Proof.
  intros Hanswers.
  induction instances as [| instance instances IH].
  - exists [], []. split; [intros w; reflexivity |]. repeat split; reflexivity.
  - destruct IH as (ws & es & Hlater & Hlen & Hids & Hcpus).
    destruct (instance_rows_answering
                (λ name, answers name (Aws.InstanceId instance))
                end_time start_time instance
                (λ name, Hanswers name (Aws.InstanceId instance)))
      as (wr & er & Hrows & Hcpu & _).
    exists (wr :: ws), (er :: es). split; [| split; [| split]].
    + intros w. simpl.
      rewrite (bind_yields _ _ _ _ Hrows), (bind_yields _ _ _ _ Hlater).
      reflexivity.
    + simpl. rewrite Hlen. reflexivity.
    + rewrite !fmap_cons, Hids. f_equal.
      specialize (Hrows initial_world).
      apply instance_rows_inv in Hrows as (Hid & _). exact Hid.
    + rewrite !fmap_cons, Hcpus, Hcpu. reflexivity.
Qed.

(** X6.  An instance for which CloudWatch has no CPU datapoint is written
    with utilisation 0: its energy is the base power of its type, its
    carbon figure is that base power over 1000 times the factor of its
    region, and its demand is 1. *)
Theorem silent_instance_rows
    (answers : string -> list Aws.cw_datapoint)
    (end_time start_time : Z) (instance : Aws.instance) :
  (forall name,
      yields (get_metric_statistics name (Aws.InstanceId instance) start_time end_time)
             (answers name)) ->
  answers "CPUUtilization" = [] ->
  let base_power :=
    default 5 (RealTimeDataCollector.instance_base_power !! Aws.InstanceType instance) in
  let factor :=
    default 500 (RealTimeDataCollector.carbon_factors
                   !! Aws.region_of (Aws.AvailabilityZone instance)) in
  exists wr er,
    yields (RealTimeDataCollector.instance_rows get_metric_statistics
              end_time start_time instance)
           (Some (wr, er)) /\
    RealTimeDataCollector.e_cpu_utilization er = 0 /\
    RealTimeDataCollector.e_energy_consumption er == base_power /\
    RealTimeDataCollector.e_carbon_footprint er == base_power / 1000 * factor /\
    RealTimeDataCollector.w_workload_demand wr = 1%Z.
Proof.
  intros Hanswers Hsilent base_power factor.
  destruct (instance_rows_answering answers end_time start_time instance Hanswers)
    as (wr & er & Hrows & Hcpu & _).
  rewrite Hsilent in Hcpu. simpl in Hcpu.
  exists wr, er. split; [exact Hrows |].
  pose proof (Hrows initial_world) as Hrun.
  apply instance_rows_inv in Hrun
    as (_ & Htype & Hregion & _ & _ & _ & _ & Hdemand & Henergy & Hcarbon).
  rewrite Htype, Hcpu in Henergy. rewrite Hregion in Hcarbon.
  fold base_power in Henergy. fold factor in Hcarbon. simpl in Henergy.
  assert (He : RealTimeDataCollector.e_energy_consumption er == base_power).
  { rewrite Henergy. field. }
  split; [exact Hcpu |]. split; [exact He |].
  split; [rewrite Hcarbon, He; reflexivity |].
  rewrite Hdemand, Hcpu. reflexivity.
Qed.

End CollectorRows.

Lemma collect_rows_consistent_witness :
  exists workload_data energy_metrics,
    RealTimeDataCollector.collect_rows
      (λ _ _ _ _, mret [Aws.CwDatapoint 0 50])
      300 0 [Aws.MkInstance "i-0a" "t3.medium" "us-east-1a"] initial_world
    = (Return (workload_data, energy_metrics), initial_world) /\
    length workload_data = length energy_metrics /\
    (length energy_metrics <= 1)%nat.
Proof.
  do 2 eexists. split; [vm_compute; reflexivity |].
  edestruct (collect_rows_consistent
               (λ _ _ _ _, mret [Aws.CwDatapoint 0 50])
               300%Z 0%Z [Aws.MkInstance "i-0a" "t3.medium" "us-east-1a"]
               initial_world initial_world) as (Hlen & Hle & _);
    [vm_compute; reflexivity |].
  split; [exact Hlen | exact Hle].
Defined.

Lemma collect_rows_answering_witness :
  exists workload_data energy_metrics,
    yields (RealTimeDataCollector.collect_rows
              (λ name instance_id _ _,
                 mret (if String.eqb instance_id "i-0a"
                       then [Aws.CwDatapoint 0 50] else []))
              300 0
              [Aws.MkInstance "i-0a" "t3.medium" "us-east-1a";
               Aws.MkInstance "i-0b" "t2.micro" "eu-west-1b"])
           (workload_data, energy_metrics) /\
    RealTimeDataCollector.e_instance_id <$> energy_metrics = ["i-0a"; "i-0b"] /\
    RealTimeDataCollector.e_cpu_utilization <$> energy_metrics = [50; 0].
Proof.
  destruct (collect_rows_answering
              (λ name instance_id _ _,
                 mret (if String.eqb instance_id "i-0a"
                       then [Aws.CwDatapoint 0 50] else []))
              (λ name instance_id,
                 if String.eqb instance_id "i-0a"
                 then [Aws.CwDatapoint 0 50] else [])
              300%Z 0%Z
              [Aws.MkInstance "i-0a" "t3.medium" "us-east-1a";
               Aws.MkInstance "i-0b" "t2.micro" "eu-west-1b"])
    as (ws & es & Hrun & _ & Hids & Hcpus).
  - intros name instance_id w. reflexivity.
  - exists ws, es. split; [exact Hrun |]. split; [exact Hids | exact Hcpus].
Defined.

Lemma silent_instance_rows_witness :
  exists wr er,
    yields (RealTimeDataCollector.instance_rows (λ _ _ _ _, mret [])
              300 0 (Aws.MkInstance "i-0b" "t2.micro" "eu-west-1b"))
           (Some (wr, er)) /\
    RealTimeDataCollector.e_energy_consumption er == 2 /\
    RealTimeDataCollector.w_workload_demand wr = 1%Z.
Proof.
  destruct (silent_instance_rows (λ _ _ _ _, mret []) (λ _, [])
              300%Z 0%Z (Aws.MkInstance "i-0b" "t2.micro" "eu-west-1b"))
    as (wr & er & Hrun & _ & Henergy & _ & Hdemand).
  - intros name w. reflexivity.
  - reflexivity.
  - exists wr, er. split; [exact Hrun |]. split; [exact Henergy | exact Hdemand].
Defined.

(** ** A whole collection cycle *)

Section CollectorCycle.

Context (get_metric_statistics : string -> string -> Z -> Z -> M (list Aws.cw_datapoint))
        (describe_instances : M (list (list Aws.instance)))
        (utcnow : M Z)
        (path_exists : string -> M bool)
        (workload_to_csv : string -> bool -> list RealTimeDataCollector.workload_row -> M unit)
        (energy_to_csv : string -> bool -> list RealTimeDataCollector.energy_row -> M unit)
        (workload_csv energy_csv : string).

(** X7.  A collection cycle never raises, whatever the cloud services, the
    clock and the file system do.  It returns with, as last log record,
    either the count of collected instances or, after a failure anywhere
    in the cycle, the error "Failed to collect and save data: ...". *)
Theorem collect_and_save_data_returns (duration_minutes : Z) (w : world) :
  exists w',
    RealTimeDataCollector.collect_and_save_data
      get_metric_statistics describe_instances utcnow path_exists
      workload_to_csv energy_to_csv workload_csv energy_csv duration_minutes w
    = (Return tt, w') /\
    exists w1 record, w' = World (log w1 ++ [record]) /\
      ((exists n : nat,
           record = (INFO, "Collected data for " +:+ pretty n +:+ " instances")) \/
       (exists e,
           record = (ERROR, "Failed to collect and save data: " +:+ str e))).
Proof.
  unfold RealTimeDataCollector.collect_and_save_data, try_except.
  case_run w r e w1 Hbody.
  - destruct r. exists w1. split; [reflexivity |].
    apply bind_return_inv in Hbody as (instances & w2 & _ & Hbody).
    apply bind_return_inv in Hbody as (end_time & w3 & _ & Hbody).
    apply bind_return_inv in Hbody as (data & w4 & _ & Hbody).
    apply bind_return_inv in Hbody as (u1 & w5 & _ & Hbody).
    apply bind_return_inv in Hbody as (u2 & w6 & _ & Hbody).
    inversion Hbody. eexists w6, _. split; [reflexivity |].
    left. eexists. reflexivity.
  - eexists. split; [reflexivity |].
    eexists w1, _. split; [reflexivity |]. right. exists e. reflexivity.
Qed.

(** X8.  A cycle that finds no running instance touches no file: neither
    CSV file is tested for existence nor written, and the only trace is
    the record "Collected data for 0 instances". *)
Theorem collect_and_save_data_idle (duration_minutes : Z) (w w1 w2 : world)
    (instances : list (list Aws.instance)) (now : Z) :
  describe_instances w = (Return instances, w1) ->
  concat instances = [] ->
  utcnow w1 = (Return now, w2) ->
  RealTimeDataCollector.collect_and_save_data
    get_metric_statistics describe_instances utcnow path_exists
    workload_to_csv energy_to_csv workload_csv energy_csv duration_minutes w
  = (Return tt, World (log w2 ++ [(INFO, "Collected data for 0 instances")])).
Proof.
  intros Hlist Hnone Hclock.
  unfold RealTimeDataCollector.collect_and_save_data, try_except.
  rewrite (bind_run_return _ _ _ _ _ Hlist).
  rewrite (bind_run_return _ _ _ _ _ Hclock).
  rewrite Hnone. reflexivity.
Qed.

End CollectorCycle.

Lemma collect_and_save_data_idle_witness :
  RealTimeDataCollector.collect_and_save_data
    (λ _ _ _ _, mthrow (Exception "unreachable"))
    (mret [[]; []]) (mret 1700000000%Z)
    (λ _, mthrow (Exception "no file system"))
    (λ _ _ _, mthrow (Exception "read-only"))
    (λ _ _ _, mthrow (Exception "read-only"))
    "data/workload_data.csv" "data/energy_metrics.csv" 5 initial_world
  = (Return tt, World [(INFO, "Collected data for 0 instances")]).
Proof.
  apply (collect_and_save_data_idle
           (λ _ _ _ _, mthrow (Exception "unreachable"))
           (mret [[]; []]) (mret 1700000000%Z)
           (λ _, mthrow (Exception "no file system"))
           (λ _ _ _, mthrow (Exception "read-only"))
           (λ _ _ _, mthrow (Exception "read-only"))
           "data/workload_data.csv" "data/energy_metrics.csv" 5%Z
           initial_world initial_world initial_world [[]; []] 1700000000%Z);
    reflexivity.
Defined.

(** ** The monitor's metrics dictionary *)

Section MonitorMetrics.

Context (get_metric_statistics : string -> string -> Z -> Z -> M (list Aws.cw_datapoint))
        (utcnow : M Z).

(** The loop extends series and never adds or removes a key. *)
Lemma read_series_dom (names : list string) (instance_id : string)
    (start_time end_time : Z)
    (metrics metrics' : gmap string (list EnergyMonitor.datapoint)) (w w' : world) :
  EnergyMonitor.read_series get_metric_statistics
    names instance_id start_time end_time metrics w = (Return metrics', w') ->
  dom metrics' = dom metrics.
Proof.
  revert metrics w. induction names as [| name names IH]; intros metrics w H; simpl in H.
  - inversion H; subst. reflexivity.
  - apply bind_return_inv in H as (datapoints & w1 & _ & H).
    apply IH in H. rewrite H. apply dom_alter_L.
Qed.

Lemma monitor_metrics_keys (instance_id : string) (hours : Z) (w w' : world)
    (metrics : gmap string (list EnergyMonitor.datapoint)) :
  EnergyMonitor.get_instance_metrics get_metric_statistics utcnow instance_id hours w
  = (Return (Some metrics), w') ->
  dom metrics = list_to_set EnergyMonitor.metric_names.
Proof.
  unfold EnergyMonitor.get_instance_metrics. intros H.
  apply try_except_return_inv in H as [H | (e & w1 & _ & H)].
  - apply bind_return_inv in H as (end_time & w1 & _ & H).
    apply bind_return_inv in H as (m & w2 & Hread & H).
    inversion H; subst.
    apply read_series_dom in Hread. rewrite Hread. reflexivity.
  - apply bind_return_inv in H as (u & w2 & _ & H). discriminate.
Qed.

(** X9.  Whatever CloudWatch and the clock do, the monitor's
    [get_instance_metrics] returns: either a dictionary whose keys are
    exactly the five metric names (so it has a 'CPUUtilization' series,
    and no 'energy_consumption' or 'carbon_footprint' entry), or [None]
    after logging the failure as its last record. *)
Theorem monitor_get_instance_metrics_outcome
    (instance_id : string) (hours : Z) (w : world) :
  exists r w',
    EnergyMonitor.get_instance_metrics get_metric_statistics utcnow instance_id hours w
    = (Return r, w') /\
    match r with
    | Some metrics =>
        dom metrics = list_to_set EnergyMonitor.metric_names /\
        size metrics = 5%nat /\
        is_Some (metrics !! "CPUUtilization") /\
        metrics !! "energy_consumption" = None /\
        metrics !! "carbon_footprint" = None
    | None =>
        exists e w1,
          w' = World (log w1 ++ [(ERROR, "Failed to get instance metrics: " +:+ str e)])
    end.
Proof.
  destruct (EnergyMonitor.get_instance_metrics get_metric_statistics utcnow
              instance_id hours w) as [[r | e] w'] eqn:Hrun.
  - exists r, w'. split; [reflexivity |].
    destruct r as [metrics |].
    + pose proof (monitor_metrics_keys _ _ _ _ _ Hrun) as Hdom.
      split; [exact Hdom |].
      split; [rewrite <- size_dom, Hdom; reflexivity |].
      split; [apply elem_of_dom; rewrite Hdom; vm_compute; reflexivity |].
      split; apply not_elem_of_dom; rewrite Hdom; vm_compute; discriminate.
    + unfold EnergyMonitor.get_instance_metrics in Hrun.
      apply try_except_return_inv in Hrun as [H | (e & w1 & _ & H)].
      * apply bind_return_inv in H as (end_time & w1 & _ & H).
        apply bind_return_inv in H as (m & w2 & _ & H). discriminate.
      * apply bind_return_inv in H as (u & w2 & Hlog & H).
        inversion H; subst. inversion Hlog; subst.
        exists e, w1. reflexivity.
  - exfalso. unfold EnergyMonitor.get_instance_metrics, try_except in Hrun.
    revert Hrun. case_run w r0 e0 w1 Hbody; discriminate.
Qed.

Lemma read_series_answering (answers : string -> list Aws.cw_datapoint)
    (instance_id : string) (start_time end_time : Z) :
  (forall name,
      yields (get_metric_statistics name instance_id start_time end_time)
             (answers name)) ->
  forall (names : list string) (metrics : gmap string (list EnergyMonitor.datapoint)),
    yields (EnergyMonitor.read_series get_metric_statistics
              names instance_id start_time end_time metrics)
           (foldl (λ acc name,
                     alter (λ series, series ++ (EnergyMonitor.entry_of <$> answers name))
                           name acc)
                  metrics names).
Proof.
  intros Hanswers names. induction names as [| name names IH]; intros metrics w; simpl.
  - reflexivity.
  - rewrite (bind_yields _ _ _ _ (Hanswers name)). apply IH.
Qed.

(** The dictionary built from the answers of the service. *)
Lemma monitor_metrics_answering
    (answers : string -> list Aws.cw_datapoint)
    (instance_id : string) (hours now : Z) (w w1 : world) :
  utcnow w = (Return now, w1) ->
  (forall name,
      yields (get_metric_statistics name instance_id (now - hours * 3600) now)
             (answers name)) ->
  exists metrics,
    EnergyMonitor.get_instance_metrics get_metric_statistics utcnow instance_id hours w
    = (Return (Some metrics), w1) /\
    (forall name,
        name ∈ EnergyMonitor.metric_names ->
        metrics !! name = Some (EnergyMonitor.entry_of <$> answers name)).
Proof.
  intros Hclock Hanswers.
  pose proof (read_series_answering answers instance_id _ _ Hanswers
                EnergyMonitor.metric_names EnergyMonitor.empty_metrics) as Hread.
  eexists. split.
  - unfold EnergyMonitor.get_instance_metrics, try_except.
    rewrite (bind_run_return _ _ _ _ _ Hclock).
    rewrite (bind_yields _ _ _ _ Hread). reflexivity.
  - intros name Hname. name_cases Hname; reflexivity.
Qed.

(** X10.  When the clock and every query answer, each of the five series
    holds one entry per datapoint of the answer for that metric, in the
    order of the answer, with the datapoint's timestamp and average; the
    queried window is the [hours] hours before the clock reading. *)
Theorem monitor_get_instance_metrics_series
    (answers : string -> list Aws.cw_datapoint)
    (instance_id : string) (hours now : Z) (w w1 : world) :
  utcnow w = (Return now, w1) ->
  (forall name,
      yields (get_metric_statistics name instance_id (now - hours * 3600) now)
             (answers name)) ->
  exists metrics,
    EnergyMonitor.get_instance_metrics get_metric_statistics utcnow instance_id hours w
    = (Return (Some metrics), w1) /\
    (forall name,
        name ∈ EnergyMonitor.metric_names ->
        metrics !! name = Some (EnergyMonitor.entry_of <$> answers name)) /\
    (forall name series,
        metrics !! name = Some series ->
        length series = length (answers name) /\
        EnergyMonitor.value <$> series = Aws.Average <$> answers name /\
        EnergyMonitor.timestamp <$> series = Aws.Timestamp <$> answers name).
Proof.
  intros Hclock Hanswers.
  destruct (monitor_metrics_answering answers instance_id hours now w w1
              Hclock Hanswers) as (metrics & Hrun & Hvalues).
  exists metrics. split; [exact Hrun |]. split; [exact Hvalues |].
  intros name series Hlookup.
  assert (Hname : name ∈ EnergyMonitor.metric_names).
  { assert (Hdom : name ∈ dom metrics) by (apply elem_of_dom; eexists; exact Hlookup).
    rewrite (monitor_metrics_keys _ _ _ _ _ Hrun) in Hdom.
    apply elem_of_list_to_set in Hdom. exact Hdom. }
  rewrite (Hvalues name Hname) in Hlookup. inversion Hlookup; subst.
  rewrite length_fmap, <- !list_fmap_compose. repeat split; reflexivity.
Qed.

End MonitorMetrics.

Lemma monitor_get_instance_metrics_series_witness :
  exists metrics,
    EnergyMonitor.get_instance_metrics
      (λ name _ _ _,
         mret (if String.eqb name "CPUUtilization"
               then [Aws.CwDatapoint 0 40; Aws.CwDatapoint 300 60] else []))
      (mret 3600%Z) "i-0a" 1 initial_world
    = (Return (Some metrics), initial_world) /\
    metrics !! "CPUUtilization"
    = Some [EnergyMonitor.Datapoint 0 40; EnergyMonitor.Datapoint 300 60] /\
    metrics !! "NetworkIn" = Some [].
Proof.
  destruct (monitor_get_instance_metrics_series
              (λ name _ _ _,
                 mret (if String.eqb name "CPUUtilization"
                       then [Aws.CwDatapoint 0 40; Aws.CwDatapoint 300 60] else []))
              (mret 3600%Z)
              (λ name, if String.eqb name "CPUUtilization"
                       then [Aws.CwDatapoint 0 40; Aws.CwDatapoint 300 60] else [])
              "i-0a" 1%Z 3600%Z initial_world initial_world)
    as (metrics & Hrun & Hvalues & _).
  - reflexivity.
  - intros name w. reflexivity.
  - exists metrics. split; [exact Hrun |]. split.
    + rewrite (Hvalues "CPUUtilization") by (repeat constructor). reflexivity.
    + rewrite (Hvalues "NetworkIn") by (repeat constructor). reflexivity.
Defined.

(** ** The monitor's energy figure *)

Lemma sum_upper (hi : Q) (xs : list Q) :
  Forall (λ x, x <= hi) xs ->
  EnergyMonitor.sum xs <= hi * inject_Z (Z.of_nat (length xs)).
Proof.
  induction 1 as [| x xs Hx _ IH].
  - simpl. rewrite Qmult_0_r. apply Qle_refl.
  - change (EnergyMonitor.sum (x :: xs)) with (x + EnergyMonitor.sum xs).
    rewrite length_cons, Nat2Z.inj_succ, <- Z.add_1_r, inject_Z_plus.
    change (inject_Z 1) with 1. lra.
Qed.

Lemma mean_upper (hi : Q) (xs : list Q) :
  xs <> [] -> Forall (λ x, x <= hi) xs -> EnergyMonitor.mean xs <= hi.
Proof.
  intros Hne Hall. unfold EnergyMonitor.mean.
  apply Qle_shift_div_r.
  - change 0 with (inject_Z 0). rewrite <- Zlt_Qlt.
    destruct xs; [congruence | simpl; lia].
  - apply sum_upper. exact Hall.
Qed.

(** X11.  A metrics dictionary without a 'CPUUtilization' entry does not
    make [calculate_energy_consumption] fail: it returns 0 and leaves one
    error record naming the missing key. *)
Theorem calculate_energy_consumption_missing_key
    (metrics : gmap string (list EnergyMonitor.datapoint)) (w : world) :
  metrics !! "CPUUtilization" = None ->
  EnergyMonitor.calculate_energy_consumption metrics w
  = (Return 0,
     World (log w ++
            [(ERROR, "Failed to calculate energy consumption: 'CPUUtilization'")])).
Proof.
  intros Hmissing.
  unfold EnergyMonitor.calculate_energy_consumption, try_except, getitem.
  rewrite Hmissing. reflexivity.
Qed.

Lemma calculate_energy_consumption_missing_key_witness :
  EnergyMonitor.calculate_energy_consumption
    {[ "NetworkIn" := [EnergyMonitor.Datapoint 0 1024] ]} initial_world
  = (Return 0,
     World [(ERROR, "Failed to calculate energy consumption: 'CPUUtilization'")]).
Proof.
  apply (calculate_energy_consumption_missing_key
           {[ "NetworkIn" := [EnergyMonitor.Datapoint 0 1024] ]} initial_world).
  reflexivity.
Defined.

(** X12.  For CPU samples that are percentages, the monitor's energy
    figure is 0 when there is no sample and otherwise lies between 100 and
    200 watts: no value strictly between 0 and 100 is ever reported. *)
Theorem calculate_energy_consumption_range
    (metrics : gmap string (list EnergyMonitor.datapoint))
    (series : list EnergyMonitor.datapoint) :
  metrics !! "CPUUtilization" = Some series ->
  Forall (λ d, 0 <= EnergyMonitor.value d /\ EnergyMonitor.value d <= 100) series ->
  exists v,
    yields (EnergyMonitor.calculate_energy_consumption metrics) v /\
    ((series = [] /\ v = 0) \/ (series <> [] /\ 100 <= v /\ v <= 200)).
Proof.
  intros Hm Hall. destruct series as [| d series].
  - exists 0. split; [apply calculate_energy_consumption_empty; exact Hm |].
    left. split; reflexivity.
  - eexists. split;
      [apply (calculate_energy_consumption_nonempty _ _ Hm); discriminate |].
    right. split; [discriminate |].
    set (xs := EnergyMonitor.value <$> d :: series).
    assert (Hlo : 0 <= EnergyMonitor.mean xs).
    { apply mean_nonneg. subst xs. rewrite Forall_fmap.
      eapply Forall_impl; [exact Hall |]. intros x [Hx _]. exact Hx. }
    assert (Hhi : EnergyMonitor.mean xs <= 100).
    { apply mean_upper; [discriminate |]. subst xs. rewrite Forall_fmap.
      eapply Forall_impl; [exact Hall |]. intros x [_ Hx]. exact Hx. }
    rewrite percent. split; nra.
Qed.

Lemma calculate_energy_consumption_range_witness :
  exists v,
    yields (EnergyMonitor.calculate_energy_consumption
              {[ "CPUUtilization" :=
                   [EnergyMonitor.Datapoint 0 40; EnergyMonitor.Datapoint 300 60] ]}) v /\
    100 <= v /\ v <= 200.
Proof.
  destruct (calculate_energy_consumption_range
              {[ "CPUUtilization" :=
                   [EnergyMonitor.Datapoint 0 40; EnergyMonitor.Datapoint 300 60] ]}
              [EnergyMonitor.Datapoint 0 40; EnergyMonitor.Datapoint 300 60])
    as (v & Hv & [[Hnil _] | (_ & Hlo & Hhi)]).
  - reflexivity.
  - repeat constructor; discriminate.
  - discriminate.
  - exists v. split; [exact Hv |]. split; [exact Hlo | exact Hhi].
Defined.

(** ** One monitoring pass *)

Section MonitorPass.

Context (get_metric_statistics : string -> string -> Z -> Z -> M (list Aws.cw_datapoint))
        (describe_instances : M (list (list Aws.instance)))
        (utcnow : M Z)
        (gauge_set : string -> list string -> Q -> M unit).

(** A delivered dictionary always has its 'CPUUtilization' series. *)
Lemma calculate_energy_consumption_on_monitored_aux
    (instance_id : string) (hours : Z) (w w' : world)
    (metrics : gmap string (list EnergyMonitor.datapoint)) :
  EnergyMonitor.get_instance_metrics get_metric_statistics utcnow instance_id hours w
  = (Return (Some metrics), w') ->
  exists series,
    metrics !! "CPUUtilization" = Some series /\
    yields (EnergyMonitor.calculate_energy_consumption metrics)
           (match series with
            | [] => 0
            | _ :: _ =>
                100 + (200 - 100)
                      * (EnergyMonitor.mean (EnergyMonitor.value <$> series) / 100)
            end).
Proof.
  intros Hrun. apply monitor_metrics_keys in Hrun as Hdom.
  assert (Hcpu : is_Some (metrics !! "CPUUtilization")).
  { apply elem_of_dom. rewrite Hdom. vm_compute. reflexivity. }
  destruct Hcpu as [series Hseries]. exists series. split; [exact Hseries |].
  destruct series as [| d series].
  - apply calculate_energy_consumption_empty. exact Hseries.
  - apply (calculate_energy_consumption_nonempty _ _ Hseries). discriminate.
Qed.

(** X13.  On a dictionary delivered by the monitor's
    [get_instance_metrics], [calculate_energy_consumption] is effect-free:
    the 'CPUUtilization' series is there, the handler is never entered and
    nothing is logged; the figure is 0 for an empty series and
    [100 + (200 - 100) * (mean / 100)] otherwise. *)
Theorem calculate_energy_consumption_on_monitored
    (instance_id : string) (hours : Z) (w w' : world)
    (metrics : gmap string (list EnergyMonitor.datapoint)) :
  EnergyMonitor.get_instance_metrics get_metric_statistics utcnow instance_id hours w
  = (Return (Some metrics), w') ->
  exists series,
    metrics !! "CPUUtilization" = Some series /\
    yields (EnergyMonitor.calculate_energy_consumption metrics)
           (match series with
            | [] => 0
            | _ :: _ =>
                100 + (200 - 100)
                      * (EnergyMonitor.mean (EnergyMonitor.value <$> series) / 100)
            end).
Proof. apply calculate_energy_consumption_on_monitored_aux. Qed.

(** What holds of the record appended for one instance. *)
Lemma monitor_instance_inv (instance : Aws.instance) (w w' : world)
    (r : EnergyMonitor.monitoring_record) :
  EnergyMonitor.monitor_instance get_metric_statistics utcnow gauge_set instance w
  = (Return (Some r), w') ->
  EnergyMonitor.m_instance_id r = Aws.InstanceId instance /\
  EnergyMonitor.m_instance_type r = Aws.InstanceType instance /\
  EnergyMonitor.m_region r = Aws.region_of (Aws.AvailabilityZone instance) /\
  dom (EnergyMonitor.m_metrics r) = list_to_set EnergyMonitor.metric_names /\
  yields (EnergyMonitor.calculate_energy_consumption (EnergyMonitor.m_metrics r))
         (EnergyMonitor.m_energy_consumption r) /\
  EnergyMonitor.m_carbon_footprint r
  == EnergyMonitor.m_energy_consumption r / 1000
     * default 500 (EnergyMonitor.carbon_factors !! EnergyMonitor.m_region r).
Proof.
  unfold EnergyMonitor.monitor_instance. intros H.
  apply bind_return_inv in H as ([metrics |] & w1 & Hmetrics & H); [| discriminate].
  destruct (decide (size metrics = 0%nat)); [discriminate |].
  apply bind_return_inv in H as (energy & w2 & Henergy & H).
  apply bind_return_inv in H as (carbon & w3 & Hcarbon & H).
  apply bind_return_inv in H as (u1 & w4 & _ & H).
  apply bind_return_inv in H as (u2 & w5 & _ & H).
  inversion H; subst; simpl.
  destruct (calculate_energy_consumption_on_monitored_aux _ _ _ _ _ Hmetrics)
    as (series & Hseries & Hcalc).
  rewrite Hcalc in Henergy. inversion Henergy; subst.
  rewrite monitor_carbon_yields in Hcarbon. inversion Hcarbon; subst.
  repeat split; try reflexivity.
  - eapply monitor_metrics_keys. exact Hmetrics.
  - exact Hcalc.
Qed.

Lemma monitor_each_inv (instances : list Aws.instance) (w w' : world)
    (records : list EnergyMonitor.monitoring_record) :
  EnergyMonitor.monitor_each get_metric_statistics utcnow gauge_set instances w
  = (Return records, w') ->
  (length records <= length instances)%nat /\
  Forall (λ r,
            dom (EnergyMonitor.m_metrics r) = list_to_set EnergyMonitor.metric_names /\
            yields (EnergyMonitor.calculate_energy_consumption (EnergyMonitor.m_metrics r))
                   (EnergyMonitor.m_energy_consumption r) /\
            EnergyMonitor.m_carbon_footprint r
            == EnergyMonitor.m_energy_consumption r / 1000
               * default 500 (EnergyMonitor.carbon_factors !! EnergyMonitor.m_region r))
         records.
Proof.
  revert w w' records.
  induction instances as [| instance instances IH]; intros w w' records H; simpl in H.
  - inversion H; subst. split; [reflexivity | constructor].
  - apply bind_return_inv in H as (record & w1 & Hrecord & H).
    apply bind_return_inv in H as (later & w2 & Hlater & H).
    apply IH in Hlater as [Hlen Hall].
    destruct record as [r |]; inversion H; subst; simpl.
    + apply monitor_instance_inv in Hrecord as (_ & _ & _ & Hdom & Hcalc & Hcarbon).
      split; [lia |]. constructor; auto.
    + split; [lia | exact Hall].
Qed.

(** X14.  A monitoring pass never raises, whatever the cloud services, the
    clock and the gauges do.  Every record it returns carries the five
    metric series, the energy figure computed from them, and the carbon
    figure estimated from that energy and the record's region; after a
    failure of the instance listing the result is the empty list and the
    failure is logged. *)
Theorem monitor_instances_outcome (w : world) :
  exists records w',
    EnergyMonitor.monitor_instances get_metric_statistics describe_instances
      utcnow gauge_set w = (Return records, w') /\
    Forall (λ r,
              dom (EnergyMonitor.m_metrics r) = list_to_set EnergyMonitor.metric_names /\
              yields (EnergyMonitor.calculate_energy_consumption (EnergyMonitor.m_metrics r))
                     (EnergyMonitor.m_energy_consumption r) /\
              EnergyMonitor.m_carbon_footprint r
              == EnergyMonitor.m_energy_consumption r / 1000
                 * default 500 (EnergyMonitor.carbon_factors !! EnergyMonitor.m_region r))
           records /\
    (forall e w1,
        describe_instances w = (Raise e, w1) ->
        records = [] /\
        w' = World (log w1 ++ [(ERROR, "Failed to monitor instances: " +:+ str e)])).
Proof.
  unfold EnergyMonitor.monitor_instances, try_except.
  case_run w r e w1 Hbody.
  - exists r, w1. split; [reflexivity |]. split.
    + apply bind_return_inv in Hbody as (instances & w2 & _ & Hbody).
      apply monitor_each_inv in Hbody as [_ Hall]. exact Hall.
    + intros e w2 He. rewrite (bind_run_raise _ _ _ _ _ He) in Hbody. discriminate.
  - eexists [], _. split; [reflexivity |]. split; [constructor |].
    intros e' w2 He. rewrite (bind_run_raise _ _ _ _ _ He) in Hbody.
    inversion Hbody; subst. split; reflexivity.
Qed.

End MonitorPass.

Lemma calculate_energy_consumption_on_monitored_witness :
  exists metrics series,
    EnergyMonitor.get_instance_metrics
      (λ name _ _ _,
         mret (if String.eqb name "CPUUtilization" then [Aws.CwDatapoint 0 50] else []))
      (mret 3600%Z) "i-0a" 1 initial_world
    = (Return (Some metrics), initial_world) /\
    metrics !! "CPUUtilization" = Some series /\
    yields_num (EnergyMonitor.calculate_energy_consumption metrics) 150.
Proof.
  destruct (monitor_metrics_answering
              (λ name _ _ _,
                 mret (if String.eqb name "CPUUtilization"
                       then [Aws.CwDatapoint 0 50] else []))
              (mret 3600%Z)
              (λ name, if String.eqb name "CPUUtilization"
                       then [Aws.CwDatapoint 0 50] else [])
              "i-0a" 1%Z 3600%Z initial_world initial_world)
    as (metrics & Hrun & Hvalues);
    [reflexivity | intros name w; reflexivity |].
  destruct (calculate_energy_consumption_on_monitored _ _ _ _ _ _ _ Hrun)
    as (series & Hseries & Hcalc).
  exists metrics, series. split; [exact Hrun |]. split; [exact Hseries |].
  eapply yields_num_intro; [exact Hcalc |].
  rewrite (Hvalues "CPUUtilization") in Hseries by (repeat constructor).
  inversion Hseries; subst. reflexivity.
Defined.

Lemma monitor_instances_outcome_witness :
  exists records w',
    EnergyMonitor.monitor_instances
      (λ _ _ _ _, mret []) (mthrow (Exception "AccessDenied")) (mret 0%Z)
      (λ _ _ _, mret tt) initial_world
    = (Return records, w') /\
    records = [] /\
    w' = World [(ERROR, "Failed to monitor instances: AccessDenied")].
Proof.
  destruct (monitor_instances_outcome
              (λ _ _ _ _, mret []) (mthrow (Exception "AccessDenied")) (mret 0%Z)
              (λ _ _ _, mret tt) initial_world)
    as (records & w' & Hrun & _ & Hfail).
  exists records, w'. split; [exact Hrun |].
  apply (Hfail (Exception "AccessDenied") initial_world). reflexivity.
Defined.

(** ** Gathering candidates and allocating *)

Section Allocation.

Context (describe_instances : M (list (list string)))
        (get_instance_energy_metrics : string -> M (option instance_metric))
        (workload : gmap string pyobj).

(** X17.  [allocate_workload] never raises, whatever the listing and the
    metrics lookup do: the caller always gets a result whose status is
    "success" or "error", and a failure of the listing itself is returned
    as status "error" with the text of the exception as message. *)
Theorem allocate_workload_always_returns (w : world) :
  exists r w',
    allocate_workload describe_instances get_instance_energy_metrics workload w
    = (Return r, w') /\
    (status r = "success" \/ status r = "error") /\
    (forall e w1,
        describe_instances w = (Raise e, w1) ->
        r = Error (str e) /\
        w' = World (log w1 ++ [(ERROR, "Failed to allocate workload: " +:+ str e)])).
Proof.
  destruct (allocate_workload describe_instances get_instance_energy_metrics workload w)
    as [[r | e] w'] eqn:Hrun.
  - exists r, w'. split; [reflexivity |]. split.
    + destruct r; [left | right]; reflexivity.
    + intros e w1 He.
      rewrite (allocate_workload_listing_failure _ _ _ _ _ _ He) in Hrun.
      inversion Hrun; subst. split; reflexivity.
  - exfalso. unfold allocate_workload, try_except in Hrun.
    revert Hrun. case_run w r0 e0 w1 Hbody; discriminate.
Qed.

End Allocation.

(** ** The lookups of the gathering phase *)

Section Lookups.

Context (describe_instances : M (list (list string)))
        (float_mean : list Q -> Q)
        (utcnow_timestamp : M Q)
        (get_metric_data : string -> Q -> Q -> M (list Q))
        (workload : gmap string pyobj).

(** One lookup, given the outcome of its query. *)
Lemma get_instance_energy_metrics_run
    (instance_id : string) (answer : outcome (list Q)) (w : world) :
  query_values utcnow_timestamp get_metric_data instance_id w = (answer, w) ->
  get_instance_energy_metrics float_mean utcnow_timestamp get_metric_data instance_id w
  = (Return (candidate_of float_mean instance_id answer),
     World (log w ++ option_list (failure_of answer))).
Proof.
  intros Hquery. unfold get_instance_energy_metrics, try_except.
  destruct answer as [values | e].
  - rewrite (bind_run_return _ _ _ _ _ Hquery). simpl.
    rewrite app_nil_r. destruct w. reflexivity.
  - rewrite (bind_run_raise _ _ _ _ _ Hquery). reflexivity.
Qed.

Lemma gather_run (answers : string -> outcome (list Q)) :
  (forall id w,
      query_values utcnow_timestamp get_metric_data id w = (answers id, w)) ->
  forall (ids : list string) (w : world),
    gather (get_instance_energy_metrics float_mean utcnow_timestamp get_metric_data) ids w
    = (Return (omap (λ id, candidate_of float_mean id (answers id)) ids),
       World (log w ++ omap (λ id, failure_of (answers id)) ids)).
Proof.
  intros Hquery ids. induction ids as [| id ids IH]; intros w.
  - simpl. rewrite app_nil_r. destruct w. reflexivity.
  - change (gather (get_instance_energy_metrics float_mean utcnow_timestamp get_metric_data)
              (id :: ids))
      with (get_instance_energy_metrics float_mean utcnow_timestamp get_metric_data id ≫=
              λ metrics,
                gather (get_instance_energy_metrics float_mean utcnow_timestamp get_metric_data) ids ≫=
                  λ later, mret (match metrics with
                                 | Some m => m :: later
                                 | None => later
                                 end)).
    rewrite (bind_run_return _ _ _ _ _
               (get_instance_energy_metrics_run id (answers id) w (Hquery id w))).
    rewrite (bind_run_return _ _ _ _ _ (IH _)).
    change (omap (λ id, candidate_of float_mean id (answers id)) (id :: ids))
      with (match candidate_of float_mean id (answers id) with
            | Some m => m :: omap (λ id, candidate_of float_mean id (answers id)) ids
            | None => omap (λ id, candidate_of float_mean id (answers id)) ids
            end).
    change (omap (λ id, failure_of (answers id)) (id :: ids))
      with (match failure_of (answers id) with
            | Some r => r :: omap (λ id, failure_of (answers id)) ids
            | None => omap (λ id, failure_of (answers id)) ids
            end).
    destruct (answers id) as [values | e]; simpl.
    + rewrite app_nil_r. reflexivity.
    + rewrite <- app_assoc. reflexivity.
Qed.

(** X15.  When the query of each instance either returns its samples or
    raises, without logging by itself, the candidate list holds one
    candidate per instance whose query returned, in the order of the
    listing, with the mean of its samples as energy (NaN when the query
    returned no sample); each instance whose query raised is skipped, and
    leaves one error record "Failed to get energy metrics: ...", in the
    order of the listing. *)
Theorem gather_answering (answers : string -> outcome (list Q))
    (ids : list string) (w : world) :
  (forall id w,
      query_values utcnow_timestamp get_metric_data id w = (answers id, w)) ->
  let candidates := omap (λ id, candidate_of float_mean id (answers id)) ids in
  gather (get_instance_energy_metrics float_mean utcnow_timestamp get_metric_data) ids w
  = (Return candidates,
     World (log w ++ omap (λ id, failure_of (answers id)) ids)) /\
  (length candidates <= length ids)%nat /\
  (forall m,
      m ∈ candidates <->
      exists id values,
        id ∈ ids /\ answers id = Return values /\
        m = InstanceMetric id (np_mean float_mean values)).
Proof.
  intros Hquery candidates. split; [apply gather_run; exact Hquery |]. split.
  - subst candidates. induction ids as [| id ids IH]; [constructor |].
    change (omap (λ id, candidate_of float_mean id (answers id)) (id :: ids))
      with (match candidate_of float_mean id (answers id) with
            | Some m => m :: omap (λ id, candidate_of float_mean id (answers id)) ids
            | None => omap (λ id, candidate_of float_mean id (answers id)) ids
            end).
    destruct (candidate_of float_mean id (answers id)); rewrite !length_cons; lia.
  - intros m. subst candidates. rewrite list_elem_of_omap. split.
    + intros (id & Hid & Hm). destruct (answers id) as [values | e] eqn:Ha;
        simpl in Hm; [| discriminate].
      inversion Hm; subst. exists id, values. repeat split; assumption.
    + intros (id & values & Hid & Ha & ->). exists id. split; [exact Hid |].
      rewrite Ha. reflexivity.
Qed.

(** X16.  End to end, with a listing that returns and queries that return
    or raise without logging by themselves: the candidates are the listed
    instances whose query returned, reservation after reservation, and the
    log first gains one error record per failed query.  Without any
    candidate the caller gets the status "error" with the text "No
    suitable instances found for workload allocation".  Otherwise it gets
    the status "success" for one of the candidates: when every candidate
    has samples, the one of least energy that comes first in that order;
    when the first candidate has no sample, so that its energy is NaN,
    that first candidate. *)
Theorem allocate_workload_end_to_end
    (answers : string -> outcome (list Q))
    (instances : list (list string)) (w w1 : world) :
  describe_instances w = (Return instances, w1) ->
  (forall id w,
      query_values utcnow_timestamp get_metric_data id w = (answers id, w)) ->
  let ids := concat instances in
  let candidates := omap (λ id, candidate_of float_mean id (answers id)) ids in
  let after_lookups := log w1 ++ omap (λ id, failure_of (answers id)) ids in
  (candidates = [] ->
   allocate_workload describe_instances
     (get_instance_energy_metrics float_mean utcnow_timestamp get_metric_data) workload w
   = (Return (Error "No suitable instances found for workload allocation"),
      World (after_lookups ++
             [(ERROR, "Failed to allocate workload: No suitable instances found for workload allocation")]))) /\
  (candidates <> [] ->
   exists best,
     best ∈ candidates /\
     allocate_workload describe_instances
       (get_instance_energy_metrics float_mean utcnow_timestamp get_metric_data) workload w
     = (Return (Success (instance_id best) (energy_consumption best)),
        World (after_lookups ++
               [(INFO, "Allocating workload to instance " +:+ instance_id best)])) /\
     (Forall (λ m, energy_consumption m <> NaN) candidates ->
      exists i, first_min_at energy_consumption candidates i best) /\
     (forall first rest,
         candidates = first :: rest -> energy_consumption first = NaN ->
         best = first)).
Proof.
  intros Hlist Hquery ids candidates after_lookups.
  pose proof (gather_run answers Hquery ids w1) as Hgather.
  fold candidates in Hgather.
  rewrite (allocate_workload_run _ _ workload _ _ _ _ _ Hlist Hgather).
  split.
  - intros ->. reflexivity.
  - destruct candidates as [| first rest]; [congruence |]. intros _.
    exists (min_scan energy_consumption first rest).
    split; [apply min_scan_elem |]. split; [reflexivity |]. split.
    + intros Hnum. inversion Hnum as [| ? ? Hfirst Hrest]; subst.
      apply (min_scan_first_min energy_consumption rest [first] 0 first Hrest
               (first_min_at_singleton _ first Hfirst)).
    + intros first' rest' Heq Hnan. inversion Heq; subst.
      apply min_scan_nan. exact Hnan.
Qed.

End Lookups.

Lemma gather_answering_witness :
  gather (get_instance_energy_metrics EnergyMonitor.mean (mret 7200)
            (λ id _ _, if String.eqb id "i-0b" then mthrow (Exception "Throttling")
                       else if String.eqb id "i-0c" then mret []
                       else mret [5; 7]))
         ["i-0a"; "i-0b"; "i-0c"] initial_world
  = (Return [InstanceMetric "i-0a" (np_mean EnergyMonitor.mean [5; 7]); InstanceMetric "i-0c" NaN],
     World [(ERROR, "Failed to get energy metrics: Throttling")]).
Proof.
  apply (gather_answering EnergyMonitor.mean (mret 7200)
           (λ id _ _, if String.eqb id "i-0b" then mthrow (Exception "Throttling")
                      else if String.eqb id "i-0c" then mret []
                      else mret [5; 7])
           (λ id, if String.eqb id "i-0b" then Raise (Exception "Throttling")
                  else if String.eqb id "i-0c" then Return []
                  else Return [5; 7])
           ["i-0a"; "i-0b"; "i-0c"] initial_world).
  intros id w. unfold query_values, mbind, M_bind, mret, M_ret, mthrow, M_raise.
  destruct (String.eqb id "i-0b"); [reflexivity |].
  destruct (String.eqb id "i-0c"); reflexivity.
Defined.

Lemma allocate_workload_end_to_end_witness :
  exists best,
    allocate_workload (mret [["i-0a"]; ["i-0b"; "i-0c"]])
      (get_instance_energy_metrics EnergyMonitor.mean (mret 7200)
         (λ id _ _, if String.eqb id "i-0a" then mret [10] else mret [5]))
      ∅ initial_world
    = (Return (Success (instance_id best) (energy_consumption best)),
       World [(INFO, "Allocating workload to instance " +:+ instance_id best)]) /\
    exists i,
      first_min_at energy_consumption
        [InstanceMetric "i-0a" (np_mean EnergyMonitor.mean [10]); InstanceMetric "i-0b" (np_mean EnergyMonitor.mean [5]);
         InstanceMetric "i-0c" (np_mean EnergyMonitor.mean [5])]
        i best.
Proof.
  destruct (proj2 (allocate_workload_end_to_end
                     (mret [["i-0a"]; ["i-0b"; "i-0c"]]) EnergyMonitor.mean (mret 7200)
                     (λ id _ _, if String.eqb id "i-0a" then mret [10] else mret [5])
                     ∅
                     (λ id, if String.eqb id "i-0a" then Return [10] else Return [5])
                     [["i-0a"]; ["i-0b"; "i-0c"]] initial_world initial_world
                     eq_refl
                     (λ id w, ltac:(unfold query_values, mbind, M_bind, mret, M_ret;
                                    destruct (String.eqb id "i-0a"); reflexivity))))
    as (best & _ & Hrun & Hnum & _); [discriminate |].
  exists best. split; [exact Hrun |].
  apply Hnum. repeat constructor; discriminate.
Defined.

Lemma allocate_workload_always_returns_witness :
  exists r w',
    allocate_workload (mthrow (Exception "AccessDenied")) (λ _, mret None) ∅
      initial_world = (Return r, w') /\
    r = Error "AccessDenied" /\
    w' = World [(ERROR, "Failed to allocate workload: AccessDenied")].
Proof.
  destruct (allocate_workload_always_returns
              (mthrow (Exception "AccessDenied")) (λ _, mret None) ∅ initial_world)
    as (r & w' & Hrun & _ & Hfail).
  exists r, w'. split; [exact Hrun |].
  apply (Hfail (Exception "AccessDenied") initial_world). reflexivity.
Defined.

(** ** Scaling *)

(** X18.  [scale_resources] signals a scale-out, by one information
    record and nothing else, exactly when the 'energy_consumption' of the
    metrics is strictly above the configured 'energy_threshold'; a missing
    energy figure counts as 0 and a missing threshold as 80.  It never
    raises. *)
Theorem scale_resources_threshold (config metrics : gmap string Q) (w : world) :
  let energy := default 0 (metrics !! "energy_consumption") in
  let threshold := default 80 (config !! "energy_threshold") in
  (threshold < energy ->
   scale_resources config metrics w
   = (Return tt,
      World (log w ++
             [(INFO, "High energy consumption detected, initiating scale out")]))) /\
  (energy <= threshold -> scale_resources config metrics w = (Return tt, w)).
Proof.
  intros energy threshold. unfold scale_resources, try_except.
  fold energy threshold.
  pose proof (lt_num_spec threshold energy) as Hcmp.
  destruct (lt_num threshold energy); split; intros H.
  - reflexivity.
  - exfalso. apply (Qlt_not_le _ _ Hcmp). exact H.
  - exfalso. apply (Qlt_not_le _ _ H). exact Hcmp.
  - reflexivity.
Qed.

Lemma scale_resources_threshold_witness :
  scale_resources ∅ {[ "energy_consumption" := 80 ]} initial_world
  = (Return tt, initial_world) /\
  scale_resources {[ "energy_threshold" := 50 ]} {[ "energy_consumption" := 50.5 ]}
    initial_world
  = (Return tt,
     World [(INFO, "High energy consumption detected, initiating scale out")]).
Proof.
  split.
  - apply (proj2 (scale_resources_threshold ∅ {[ "energy_consumption" := 80 ]}
                    initial_world)).
    discriminate.
  - apply (proj1 (scale_resources_threshold
                    {[ "energy_threshold" := 50 ]} {[ "energy_consumption" := 50.5 ]}
                    initial_world)).
    reflexivity.
Defined.

(** ** The API *)

Lemma sustainability_known (region : string) (entry : gmap string Q) :
  ApiIntegration.sustainability_data !! region = Some entry ->
  (region, entry) ∈
    [("us-east-1", ApiIntegration.region_entry 35 400);
     ("eu-west-1", ApiIntegration.region_entry 60 200);
     ("ap-southeast-1", ApiIntegration.region_entry 25 600)].
Proof.
  unfold ApiIntegration.sustainability_data. intros H.
  destruct (decide (region = "us-east-1")) as [-> | H1].
  { rewrite lookup_insert_eq in H. inversion H. repeat constructor. }
  rewrite lookup_insert_ne in H by congruence.
  destruct (decide (region = "eu-west-1")) as [-> | H2].
  { rewrite lookup_insert_eq in H. inversion H. repeat constructor. }
  rewrite lookup_insert_ne in H by congruence.
  destruct (decide (region = "ap-southeast-1")) as [-> | H3].
  { rewrite lookup_singleton_eq in H. inversion H. repeat constructor. }
  rewrite lookup_singleton_ne in H by congruence. discriminate.
Qed.

Lemma sustainability_unknown (region : string) :
  ApiIntegration.sustainability_data !! region = None ->
  RealTimeDataCollector.carbon_factors !! region = None.
Proof.
  unfold ApiIntegration.sustainability_data, RealTimeDataCollector.carbon_factors.
  intros H.
  destruct (decide (region = "us-east-1")) as [-> | H1].
  { rewrite lookup_insert_eq in H. discriminate. }
  rewrite lookup_insert_ne in H by congruence.
  rewrite lookup_insert_ne by congruence.
  destruct (decide (region = "eu-west-1")) as [-> | H2].
  { rewrite lookup_insert_eq in H. discriminate. }
  rewrite lookup_insert_ne in H by congruence.
  rewrite lookup_insert_ne by congruence.
  destruct (decide (region = "ap-southeast-1")) as [-> | H3].
  { rewrite lookup_singleton_eq in H. discriminate. }
  apply lookup_singleton_ne. congruence.
Qed.

Lemma region_entry_lookup (renewable_percentage carbon_intensity : Q) :
  ApiIntegration.region_entry renewable_percentage carbon_intensity !! "carbon_intensity"
  = Some carbon_intensity /\
  ApiIntegration.region_entry renewable_percentage carbon_intensity !! "renewable_percentage"
  = Some renewable_percentage /\
  size (ApiIntegration.region_entry renewable_percentage carbon_intensity) = 2%nat.
Proof.
  unfold ApiIntegration.region_entry. split; [| split].
  - rewrite lookup_insert_ne by discriminate. apply lookup_singleton_eq.
  - apply lookup_insert_eq.
  - rewrite map_size_insert_None by (apply lookup_singleton_ne; discriminate).
    rewrite map_size_singleton. reflexivity.
Qed.

Lemma sustainability_metrics_yields (region : string) :
  yields (ApiIntegration.get_sustainability_metrics region)
         (default (ApiIntegration.region_entry 30 500)
                  (ApiIntegration.sustainability_data !! region)).
Proof. intros w. reflexivity. Qed.

(** X19.  The sustainability endpoint and the carbon estimates agree on
    the carbon intensity of every region: [get_sustainability_metrics]
    reports under 'carbon_intensity' the very factor that both variants of
    [estimate_carbon_footprint] apply, for the three listed regions and,
    as 500, for any other name; it always reports a renewable percentage
    between 25 and 60, and never raises. *)
Theorem sustainability_carbon_intensity_agrees (region : string) :
  exists metrics,
    yields (ApiIntegration.get_sustainability_metrics region) metrics /\
    metrics !! "carbon_intensity"
    = Some (default 500 (RealTimeDataCollector.carbon_factors !! region)) /\
    metrics !! "carbon_intensity"
    = Some (default 500 (EnergyMonitor.carbon_factors !! region)) /\
    (exists r, metrics !! "renewable_percentage" = Some r /\ 25 <= r /\ r <= 60) /\
    size metrics = 2%nat.
Proof.
  eexists. split; [apply sustainability_metrics_yields |].
  rewrite carbon_factors_same.
  destruct (ApiIntegration.sustainability_data !! region) as [entry |] eqn:Hentry; simpl.
  - apply sustainability_known in Hentry.
    list_cases Hentry;
      match goal with
      | |- context [ApiIntegration.region_entry ?r ?c] =>
          destruct (region_entry_lookup r c) as (Hc & Hr & Hsize)
      end;
      (split; [rewrite Hc; reflexivity |]; split; [rewrite Hc; reflexivity |];
       split; [eexists; split; [exact Hr | split; discriminate] | exact Hsize]).
  - rewrite (sustainability_unknown region Hentry).
    destruct (region_entry_lookup 30 500) as (Hc & Hr & Hsize).
    split; [exact Hc |]. split; [exact Hc |].
    split; [eexists; split; [exact Hr | split; discriminate] | exact Hsize].
Qed.

Section ApiRoutes.

Context (new_allocator new_monitor new_api : M unit)
        (list_instance_ids : M (list (list string)))
        (get_instance_energy_metrics : string -> M (option instance_metric))
        (get_metric_statistics : string -> string -> Z -> Z -> M (list Aws.cw_datapoint))
        (utcnow : M Z)
        (http_exception_str : Z -> string -> string).

(** X20.  Once the allocator object is built, POST /workload/allocate
    never answers with an error status: whatever the cloud services do,
    the client gets as body exactly the result that
    [WorkloadAllocator.allocate_workload] returned for the request, and
    the route adds nothing to the log; so a failed allocation arrives as a
    body whose status is "error".  Only a failure to build the allocator
    gives HTTP 500, with the text of that failure as detail. *)
Theorem allocate_route_outcome (workload : gmap string pyobj) (w w1 : world) :
  (new_allocator w = (Return tt, w1) ->
   exists body w',
     WorkloadAllocator.allocate_workload list_instance_ids
       get_instance_energy_metrics workload w1 = (Return body, w') /\
     ApiIntegration.allocate_workload new_allocator list_instance_ids
       get_instance_energy_metrics workload w = (Return (ApiIntegration.Ok body), w') /\
     (status body = "success" \/ status body = "error")) /\
  (forall e,
      new_allocator w = (Raise e, w1) ->
      ApiIntegration.allocate_workload new_allocator list_instance_ids
        get_instance_energy_metrics workload w
      = (Return (ApiIntegration.HttpError 500 (str e)),
         World (log w1 ++ [(ERROR, "Workload allocation failed: " +:+ str e)]))).
Proof.
  split.
  - intros Hnew. unfold ApiIntegration.allocate_workload, try_except.
    rewrite (bind_run_return _ _ _ _ _ Hnew).
    destruct (allocate_workload list_instance_ids get_instance_energy_metrics
                workload w1) as [[body | e] w2] eqn:Hrun.
    + rewrite (bind_run_return _ _ _ _ _ Hrun).
      exists body, w2. split; [reflexivity |]. split; [reflexivity |].
      destruct body; [left | right]; reflexivity.
    + exfalso.
      apply (allocate_workload_never_raises list_instance_ids
               get_instance_energy_metrics workload w1 e).
      unfold raises. rewrite Hrun. reflexivity.
  - intros e Hnew. unfold ApiIntegration.allocate_workload, try_except.
    rewrite (bind_run_raise _ _ _ _ _ Hnew). reflexivity.
Qed.

(** X21.  GET /metrics/energy/{instance_id} always answers, and with one
    of two answers only: HTTP 500, or a body for the requested instance
    whose energy consumption and carbon footprint are both the number 0.
    The metrics dictionary it reads has no such entries, so no measured
    figure is ever reported, and the status 404 prepared for a missing
    instance never reaches the client. *)
Theorem energy_route_outcome (instance_id : string) (w : world) :
  exists resp w',
    ApiIntegration.get_energy_metrics new_monitor get_metric_statistics utcnow
      http_exception_str instance_id w = (Return resp, w') /\
    match resp with
    | ApiIntegration.Ok body =>
        ApiIntegration.r_instance_id body = instance_id /\
        ApiIntegration.r_energy_consumption body = ApiIntegration.Number 0 /\
        ApiIntegration.r_carbon_footprint body = ApiIntegration.Number 0
    | ApiIntegration.HttpError status_code _ => status_code = 500%Z
    end.
Proof.
  unfold ApiIntegration.get_energy_metrics, try_except.
  case_run w resp e w1 Hbody.
  - exists resp, w1. split; [reflexivity |].
    apply bind_return_inv in Hbody as (u & w2 & _ & Hbody).
    apply bind_return_inv in Hbody as ([metrics |] & w3 & Hmetrics & Hbody);
      [| discriminate].
    destruct (decide (size metrics = 0%nat)); [discriminate |].
    apply bind_return_inv in Hbody as (now & w4 & _ & Hbody).
    inversion Hbody; subst; simpl.
    pose proof (monitor_metrics_keys _ _ _ _ _ _ _ Hmetrics) as Hdom.
    assert (He : metrics !! "energy_consumption" = None).
    { apply not_elem_of_dom. rewrite Hdom. vm_compute. discriminate. }
    assert (Hc : metrics !! "carbon_footprint" = None).
    { apply not_elem_of_dom. rewrite Hdom. vm_compute. discriminate. }
    unfold ApiIntegration.get_or_zero. rewrite He, Hc. repeat split; reflexivity.
  - eexists _, _. split; [reflexivity |]. reflexivity.
Qed.

(** X22.  When the monitor cannot deliver metrics for the instance (its
    [get_instance_metrics] returns [None]), the route raises the 404
    "Instance not found" inside its own [try] block, and the client
    receives HTTP 500 whose detail is the text of that exception. *)
Theorem energy_route_missing_instance (instance_id : string) (w w1 w2 : world) :
  new_monitor w = (Return tt, w1) ->
  EnergyMonitor.get_instance_metrics get_metric_statistics utcnow instance_id 1 w1
  = (Return None, w2) ->
  let detail := http_exception_str 404 "Instance not found" in
  ApiIntegration.get_energy_metrics new_monitor get_metric_statistics utcnow
    http_exception_str instance_id w
  = (Return (ApiIntegration.HttpError 500 detail),
     World (log w2 ++ [(ERROR, "Failed to get energy metrics: " +:+ detail)])).
Proof.
  intros Hnew Hmetrics detail.
  unfold ApiIntegration.get_energy_metrics, try_except.
  rewrite (bind_run_return _ _ _ _ _ Hnew).
  rewrite (bind_run_return _ _ _ _ _ Hmetrics). reflexivity.
Qed.

(** X23.  Once the API object is built, GET /metrics/sustainability/{region}
    answers every region name with a body, never with 404 or 500: a listed
    region gets its own figures and any other name the default figures,
    and the carbon intensity in the body is the factor the carbon
    estimates use for that name. *)
Theorem sustainability_route_outcome (region : string) (w w1 : world) :
  new_api w = (Return tt, w1) ->
  exists metrics,
    ApiIntegration.get_region_sustainability new_api http_exception_str region w
    = (Return (ApiIntegration.Ok metrics), w1) /\
    metrics !! "carbon_intensity"
    = Some (default 500 (RealTimeDataCollector.carbon_factors !! region)) /\
    (ApiIntegration.sustainability_data !! region = None ->
     metrics = ApiIntegration.region_entry 30 500).
Proof.
  intros Hnew.
  assert (Hsize : size (default (ApiIntegration.region_entry 30 500)
                          (ApiIntegration.sustainability_data !! region)) = 2%nat /\
                  default (ApiIntegration.region_entry 30 500)
                    (ApiIntegration.sustainability_data !! region) !! "carbon_intensity"
                  = Some (default 500 (RealTimeDataCollector.carbon_factors !! region))).
  { destruct (ApiIntegration.sustainability_data !! region) as [entry |] eqn:Hentry; simpl.
    - apply sustainability_known in Hentry.
      list_cases Hentry;
        match goal with
        | |- context [ApiIntegration.region_entry ?r ?c] =>
            destruct (region_entry_lookup r c) as (Hc & _ & Hs)
        end; (split; [exact Hs | rewrite Hc; reflexivity]).
    - rewrite (sustainability_unknown region Hentry).
      destruct (region_entry_lookup 30 500) as (Hc & _ & Hs).
      split; [exact Hs | exact Hc]. }
  destruct Hsize as [Hsize Hcarbon].
  eexists. split; [| split].
  - unfold ApiIntegration.get_region_sustainability, try_except.
    rewrite (bind_run_return _ _ _ _ _ Hnew).
    rewrite (bind_yields _ _ _ _ (sustainability_metrics_yields region)).
    destruct (decide _) as [Hz | _]; [rewrite Hsize in Hz; discriminate |].
    reflexivity.
  - exact Hcarbon.
  - intros ->. reflexivity.
Qed.

End ApiRoutes.

Lemma allocate_route_outcome_witness :
  (exists body w',
      WorkloadAllocator.allocate_workload (mret [["i-0a"]])
        (λ id, mret (Some (InstanceMetric id (Num 5)))) ∅ initial_world
      = (Return body, w') /\
      ApiIntegration.allocate_workload (mret tt) (mret [["i-0a"]])
        (λ id, mret (Some (InstanceMetric id (Num 5)))) ∅ initial_world
      = (Return (ApiIntegration.Ok body), w') /\
      body = Success "i-0a" (Num 5)) /\
  ApiIntegration.allocate_workload
    (mthrow (Exception "config missing")) (mret []) (λ _, mret None) ∅ initial_world
  = (Return (ApiIntegration.HttpError 500 "config missing"),
     World [(ERROR, "Workload allocation failed: config missing")]).
Proof.
  split.
  - destruct (proj1 (allocate_route_outcome (mret tt) (mret [["i-0a"]])
                       (λ id, mret (Some (InstanceMetric id (Num 5)))) ∅
                       initial_world initial_world) eq_refl)
      as (body & w' & Hallocator & Hroute & _).
    exists body, w'. split; [exact Hallocator |]. split; [exact Hroute |].
    vm_compute in Hallocator. congruence.
  - apply (proj2 (allocate_route_outcome
                    (mthrow (Exception "config missing")) (mret []) (λ _, mret None) ∅
                    initial_world initial_world)
             (Exception "config missing")).
    reflexivity.
Defined.

Lemma energy_route_missing_instance_witness :
  ApiIntegration.get_energy_metrics (mret tt)
    (λ _ _ _ _, mthrow (Exception "Throttling")) (mret 3600%Z)
    (λ status_code detail, detail) "i-0a" initial_world
  = (Return (ApiIntegration.HttpError 500 "Instance not found"),
     World [(ERROR, "Failed to get instance metrics: Throttling");
            (ERROR, "Failed to get energy metrics: Instance not found")]).
Proof.
  apply (energy_route_missing_instance (mret tt)
           (λ _ _ _ _, mthrow (Exception "Throttling")) (mret 3600%Z)
           (λ status_code detail, detail) "i-0a"
           initial_world initial_world
           (World [(ERROR, "Failed to get instance metrics: Throttling")]));
    reflexivity.
Defined.

Lemma sustainability_route_outcome_witness :
  exists metrics,
    ApiIntegration.get_region_sustainability (mret tt) (λ _ detail, detail)
      "mars-north-1" initial_world
    = (Return (ApiIntegration.Ok metrics), initial_world) /\
    metrics !! "carbon_intensity" = Some 500.
Proof.
  destruct (sustainability_route_outcome (mret tt) (λ _ detail, detail)
              "mars-north-1" initial_world initial_world)
    as (metrics & Hrun & Hcarbon & _); [reflexivity |].
  exists metrics. split; [exact Hrun | exact Hcarbon].
Defined.

(** ** From availability zone to region *)

(** Dropping the last character undoes appending one. *)
Lemma region_of_snoc (region : string) (letter : Ascii.ascii) :
  Aws.region_of (region +:+ String letter EmptyString) = region.
Proof.
  unfold Aws.region_of.
  induction region as [| a region IH].
  - reflexivity.
  - change (String a region +:+ String letter EmptyString)
      with (String a (region +:+ String letter EmptyString)).
    destruct (region +:+ String letter EmptyString) as [| b zone] eqn:Hzone.
    + destruct region; discriminate.
    + cbn [String.length] in *.
      replace (S (S (String.length zone)) - 1)%nat with (S (String.length zone)) by lia.
      replace (S (String.length zone) - 1)%nat with (String.length zone) in IH by lia.
      assert (Hstep : forall n s,
                 String.substring 0 (S n) (String a s)
                 = String a (String.substring 0 n s)) by reflexivity.
      rewrite Hstep, IH. reflexivity.
Qed.

(** X24.  The region charged for an instance is its availability zone
    without the last character: a zone written as a region name followed
    by one letter gives back that region name, so such an instance is
    estimated with the carbon factor of its own region; an empty zone
    gives the empty name and no failure. *)
Theorem region_of_zone (region : string) (letter : Ascii.ascii) (energy : Q) :
  Aws.region_of (region +:+ String letter EmptyString) = region /\
  Aws.region_of "" = "" /\
  yields (RealTimeDataCollector.estimate_carbon_footprint energy
            (Aws.region_of (region +:+ String letter EmptyString)))
         (energy / 1000 * default 500 (RealTimeDataCollector.carbon_factors !! region)).
Proof.
  pose proof (region_of_snoc region letter) as Hregion.
  split; [exact Hregion |]. split; [reflexivity |].
  rewrite Hregion. apply collector_carbon_yields.
Qed.

Lemma region_of_zone_witness :
  Aws.region_of "eu-west-1b" = "eu-west-1" /\
  yields (RealTimeDataCollector.estimate_carbon_footprint 14 (Aws.region_of "eu-west-1b"))
         (14 / 1000 * 200).
Proof.
  destruct (region_of_zone "eu-west-1" (Ascii.ascii_of_nat 98) 14) as (Hregion & _ & Hcarbon).
  split; [exact Hregion | exact Hcarbon].
Defined.

(** ** More on selection and on the estimates *)

(** X25.  Reordering candidates that all have samples never changes the
    energy of the selected instance: two candidate lists with the same
    members, all with a number as energy, lead to selections of equal
    energy (only the name may differ, among equally cheap candidates). *)
Theorem select_best_energy_order_independent
    (candidates candidates' : list instance_metric) (w w' : world) :
  candidates ≡ₚ candidates' ->
  candidates <> [] ->
  Forall (λ m, energy_consumption m <> NaN) candidates ->
  exists id q w1 id' q' w1',
    select_best candidates w = (Return (Success id (Num q)), w1) /\
    select_best candidates' w' = (Return (Success id' (Num q')), w1') /\
    q == q'.
Proof.
  intros Hperm Hne Hnum.
  assert (Hne' : candidates' <> []).
  { intros ->. apply Permutation_nil_r in Hperm. congruence. }
  assert (Hnum' : Forall (λ m, energy_consumption m <> NaN) candidates').
  { rewrite <- Hperm. exact Hnum. }
  destruct (select_best_first_minimum_of_numbers candidates w Hne Hnum)
    as (best & i & Hrun & Hi & Hall & _).
  destruct (select_best_first_minimum_of_numbers candidates' w' Hne' Hnum')
    as (best' & i' & Hrun' & Hi' & Hall' & _).
  assert (Hin : best ∈ candidates').
  { rewrite <- Hperm. eapply list_elem_of_lookup_2. exact Hi. }
  assert (Hin' : best' ∈ candidates).
  { rewrite Hperm. eapply list_elem_of_lookup_2. exact Hi'. }
  destruct (le_float_true_inv _ _ (Hall best' Hin')) as (q & q' & Eq & Eq' & Hle).
  destruct (le_float_true_inv _ _ (Hall' best Hin)) as (p' & p & Ep' & Ep & Hle').
  rewrite Eq in Ep. inversion Ep; subst p.
  rewrite Eq' in Ep'. inversion Ep'; subst p'.
  rewrite Eq in Hrun. rewrite Eq' in Hrun'.
  do 6 eexists. split; [exact Hrun |]. split; [exact Hrun' |].
  apply Qle_antisym; assumption.
Qed.

Lemma select_best_energy_order_independent_witness :
  exists id q w1 id' q' w1',
    select_best [InstanceMetric "a" (Num 10); InstanceMetric "b" (Num 5);
                 InstanceMetric "c" (Num 5)]
      initial_world = (Return (Success id (Num q)), w1) /\
    select_best [InstanceMetric "c" (Num 5); InstanceMetric "b" (Num 5);
                 InstanceMetric "a" (Num 10)]
      initial_world = (Return (Success id' (Num q')), w1') /\
    q == q'.
Proof.
  apply (select_best_energy_order_independent
           [InstanceMetric "a" (Num 10); InstanceMetric "b" (Num 5);
            InstanceMetric "c" (Num 5)]
           [InstanceMetric "c" (Num 5); InstanceMetric "b" (Num 5);
            InstanceMetric "a" (Num 10)]).
  - apply (Permutation_rev
             [InstanceMetric "a" (Num 10); InstanceMetric "b" (Num 5);
              InstanceMetric "c" (Num 5)]).
  - discriminate.
  - repeat constructor; discriminate.
Defined.

(** X26.  The collector's pipeline from utilisation to carbon is monotone:
    for one instance type and region, a higher utilisation never gives a
    lower carbon figure, and for a non-negative utilisation the figure is
    strictly positive. *)
Theorem carbon_of_utilisation_monotone
    (instance_type region : string) (cpu1 cpu2 : Q) :
  cpu1 <= cpu2 ->
  exists e1 e2 c1 c2,
    yields (RealTimeDataCollector.estimate_energy_consumption cpu1 instance_type) e1 /\
    yields (RealTimeDataCollector.estimate_carbon_footprint e1 region) c1 /\
    yields (RealTimeDataCollector.estimate_energy_consumption cpu2 instance_type) e2 /\
    yields (RealTimeDataCollector.estimate_carbon_footprint e2 region) c2 /\
    c1 <= c2 /\
    (0 <= cpu1 -> 0 < c1).
Proof.
  intros Hle. do 4 eexists.
  split; [apply estimate_energy_consumption_yields |].
  split; [apply collector_carbon_yields |].
  split; [apply estimate_energy_consumption_yields |].
  split; [apply collector_carbon_yields |].
  destruct (base_power_range instance_type) as [Hb1 Hb2].
  destruct (carbon_factor_range region) as [Hf1 Hf2].
  set (b := default 5 _) in *. set (f := default 500 _) in *.
  assert (E : forall x, (b + (b * 2.5 - b) * (x / 100)) / 1000 * f
                        == (b * f) * (0.001 + 0.000015 * x)) by (intros x; field).
  rewrite !E.
  assert (Hbf : 0 < b * f) by nra.
  split; [| intros H0]; nra.
Qed.

Lemma carbon_of_utilisation_monotone_witness :
  exists e1 e2 c1 c2,
    yields (RealTimeDataCollector.estimate_energy_consumption 10 "t3.medium") e1 /\
    yields (RealTimeDataCollector.estimate_carbon_footprint e1 "us-east-1") c1 /\
    yields (RealTimeDataCollector.estimate_energy_consumption 90 "t3.medium") e2 /\
    yields (RealTimeDataCollector.estimate_carbon_footprint e2 "us-east-1") c2 /\
    c1 <= c2 /\ 0 < c1.
Proof.
  destruct (carbon_of_utilisation_monotone "t3.medium" "us-east-1" 10 90)
    as (e1 & e2 & c1 & c2 & H1 & H2 & H3 & H4 & Hle & Hpos); [discriminate |].
  exists e1, e2, c1, c2.
  split; [exact H1 |]. split; [exact H2 |]. split; [exact H3 |].
  split; [exact H4 |]. split; [exact Hle | apply Hpos; discriminate].
Defined.
